(** * compdb: the compiler wrapper [cc.py] and the database generator
      [gen_compdb.py], embedded and verified.

    Both scripts are straight-line Python.  They are embedded here over

    - Python [str] values as lists of Unicode code points,
    - the objects [json.loads] can return ([pyobj]),
    - a small exception-and-state monad over a [world] holding the file
      system, standard output and the trace of operating-system calls.

    The Python library functions the scripts call ([str.endswith],
    [os.path.join], [json.loads], [json.dumps], [readlines], [print]) are
    modelled next to the code that uses them.  Files hold text: the
    encoding of a file's bytes, permissions, and the interpreter's resource
    limits (recursion depth, size of integer literals) are outside the
    model. *)

From Stdlib Require Import ZArith NArith List String Ascii Bool Lia DecimalString.
From stdpp Require Import base tactics option list gmap.
Import ListNotations.
Local Open Scope N_scope.

(** ** Python strings *)

(** A Python [str] is a sequence of code points. *)
Definition str := list N.

(** [py "abc"] is the [str] with the code points of the literal. *)
Fixpoint py (s : string) : str :=
  match s with
  | EmptyString => []
  | String a s' => N_of_ascii a :: py s'
  end.
Arguments py _ : simpl never.

(** [dq "{'k': 1}"] is [py] with every apostrophe read as a double quote
    (code point 34), to write JSON text in examples. *)
Definition dq (s : string) : str :=
  map (fun c => if c =? 39 then 34 else c) (py s).

(** [s.startswith(prefix)] *)
Definition startswith (s prefix : str) : bool :=
  bool_decide (take (length prefix) s = prefix).

(** [s.endswith(suffix)]: the last [len(suffix)] code points of [s] are
    those of [suffix]. *)
Definition endswith (s suffix : str) : bool :=
  (length suffix <=? length s)%nat
  && bool_decide (drop (length s - length suffix)%nat s = suffix).

(** ** gen_compdb.py, line 16: the test on an argument *)

(** [a.endswith('.c') or a.endswith('.cc') or a.endswith('.cpp')] *)
Definition is_src (a : str) : bool :=
  endswith a (py ".c") || endswith a (py ".cc") || endswith a (py ".cpp").

(** ** Exceptions *)

(** The exceptions the two scripts can raise.  [RecursionError] is what the
    decoder raises when its recursion budget runs out. *)
Inductive exn :=
  | JSONDecodeError | RecursionError | KeyError | TypeError
  | AttributeError | IndexError | FileNotFoundError.

Inductive result (A : Type) :=
  | Ok (a : A)
  | Raise (e : exn).
Arguments Ok {A} a.
Arguments Raise {A} e.

#[global] Instance result_ret : MRet result := fun A a => Ok a.
#[global] Instance result_bind : MBind result := fun A B f m =>
  match m with Ok a => f a | Raise e => Raise e end.

Definition raised {A} (r : result A) : bool :=
  match r with Ok _ => false | Raise _ => true end.

(** ** Python objects *)

Set Warnings "-register-all".

(** The objects [json.loads] returns.  A float is kept as the text of the
    JSON number it was read from ([NaN], [Infinity] and [-Infinity]
    included): floating point is not modelled, and the scripts never
    compute with a number.  A dict is its items in insertion order, with
    distinct keys. *)
Inductive pyobj :=
  | PyNone
  | PyBool (b : bool)
  | PyInt (z : Z)
  | PyFloat (literal : str)
  | PyStr (s : str)
  | PyList (items : list pyobj)
  | PyDict (items : list (str * pyobj)).

(** [d[k] = v] on the items of a dict: an existing key keeps its place. *)
Fixpoint dict_set {V} (d : list (str * V)) (k : str) (v : V) : list (str * V) :=
  match d with
  | [] => [(k, v)]
  | (k', v') :: d' =>
      if bool_decide (k' = k) then (k', v) :: d' else (k', v') :: dict_set d' k v
  end.

(** [dict(pairs)] *)
Definition dict {V} (pairs : list (str * V)) : list (str * V) :=
  foldl (fun d kv => dict_set d kv.1 kv.2) [] pairs.

Fixpoint dict_get {V} (d : list (str * V)) (k : str) : option V :=
  match d with
  | [] => None
  | (k', v) :: d' => if bool_decide (k' = k) then Some v else dict_get d' k
  end.

(** [o[k]] for a [str] key [k]: only a dict can be indexed by a string, and
    a dict without the key raises [KeyError]. *)
Definition getitem (o : pyobj) (k : str) : result pyobj :=
  match o with
  | PyDict d => match dict_get d k with Some v => Ok v | None => Raise KeyError end
  | _ => Raise TypeError
  end.

(** [prefix + o] for a list [prefix]: [o] must be a list too. *)
Definition list_add (prefix : list pyobj) (o : pyobj) : result (list pyobj) :=
  match o with
  | PyList l => Ok (prefix ++ l)
  | _ => Raise TypeError
  end.

(** ** os.path.join (posixpath), two arguments *)

Definition os_path_join (a b : str) : str :=
  if startswith b (py "/") then b
  else if bool_decide (a = []) || endswith a (py "/") then a ++ b
  else a ++ py "/" ++ b.

(** ** json.loads

    The decoder follows the scanner of Python's [json] module: a value is
    read at the head of the text and the rest of the text is returned with
    it.  Every rejection is a [JSONDecodeError]; messages and positions are
    not kept. *)

Definition is_ws (c : N) : bool := (c =? 32) || (c =? 9) || (c =? 10) || (c =? 13).

(** [WHITESPACE.match(s, idx).end()] *)
Fixpoint skip_ws (s : str) : str :=
  match s with
  | c :: s' => if is_ws c then skip_ws s' else s
  | [] => []
  end.

Definition is_digit (c : N) : bool := (48 <=? c) && (c <=? 57).

Definition hexval (c : N) : option N :=
  if is_digit c then Some (c - 48)
  else if (97 <=? c) && (c <=? 102) then Some (c - 87)
  else if (65 <=? c) && (c <=? 70) then Some (c - 55)
  else None.

(** The four hexadecimal digits of a [\uXXXX] escape. *)
Definition hex4 (a b c d : N) : option N :=
  x1 ← hexval a; x2 ← hexval b; x3 ← hexval c; x4 ← hexval d;
  Some (((x1 * 16 + x2) * 16 + x3) * 16 + x4).

Definition is_high_surrogate (u : N) : bool := (0xd800 <=? u) && (u <=? 0xdbff).
Definition is_low_surrogate (u : N) : bool := (0xdc00 <=? u) && (u <=? 0xdfff).

(** The character a backslash escape other than [\u] stands for. *)
Definition backslash (e : N) : option N :=
  if e =? 34 then Some 34 else if e =? 92 then Some 92
  else if e =? 47 then Some 47 else if e =? 98 then Some 8
  else if e =? 102 then Some 12 else if e =? 110 then Some 10
  else if e =? 114 then Some 13 else if e =? 116 then Some 9
  else None.

Definition cons_chr (c : N) (r : result (str * str)) : result (str * str) :=
  '(x, rest) ← r; Ok (c :: x, rest).

(** [scanstring(s, end)] with [strict=True]: [s] starts after the opening
    quote; the result is the decoded string and the text after the closing
    quote. *)
Fixpoint scanstring (s : str) : result (str * str) :=
  match s with
  | [] => Raise JSONDecodeError
  | c :: s1 =>
    if c =? 34 then Ok ([], s1)
    else if c =? 92 then
      match s1 with
      | [] => Raise JSONDecodeError
      | e :: s2 =>
        if e =? 117 then
          match s2 with
          | h1 :: h2 :: h3 :: h4 :: s3 =>
            match hex4 h1 h2 h3 h4 with
            | None => Raise JSONDecodeError
            | Some uni =>
              match s3 with
              | b :: u :: g1 :: g2 :: g3 :: g4 :: s4 =>
                if is_high_surrogate uni && (b =? 92) && (u =? 117) then
                  match hex4 g1 g2 g3 g4 with
                  | None => Raise JSONDecodeError
                  | Some uni2 =>
                    if is_low_surrogate uni2 then
                      cons_chr
                        (0x10000 + N.lor (N.shiftl (uni - 0xd800) 10) (uni2 - 0xdc00))
                        (scanstring s4)
                    else cons_chr uni (scanstring s3)
                  end
                else cons_chr uni (scanstring s3)
              | _ => cons_chr uni (scanstring s3)
              end
            end
          | _ => Raise JSONDecodeError
          end
        else
          match backslash e with
          | Some ch => cons_chr ch (scanstring s2)
          | None => Raise JSONDecodeError
          end
      end
    else if c <? 32 then Raise JSONDecodeError
    else cons_chr c (scanstring s1)
  end.

(** The longest run of decimal digits at the head of [s], and the rest. *)
Fixpoint span_digits (s : str) : str * str :=
  match s with
  | c :: s' =>
      if is_digit c then let '(d, r) := span_digits s' in (c :: d, r) else ([], s)
  | [] => ([], [])
  end.

(** [int(digits)] *)
Definition int_of_digits (digits : str) : Z :=
  foldl (fun acc d => acc * 10 + Z.of_N (d - 48))%Z 0%Z digits.

(** [NUMBER_RE]'s integer part without the sign: [0|[1-9][0-9]*]. *)
Definition match_int (s : str) : option (str * str) :=
  match s with
  | c :: s' =>
      if c =? 48 then Some ([c], s')
      else if is_digit c then let '(d, r) := span_digits s' in Some (c :: d, r)
      else None
  | [] => None
  end.

(** [NUMBER_RE]'s optional fraction: a dot and at least one digit. *)
Definition match_frac (s : str) : str * str :=
  match s with
  | dot :: d :: s' =>
      if (dot =? 46) && is_digit d
      then let '(ds, r) := span_digits (d :: s') in (dot :: ds, r)
      else ([], s)
  | _ => ([], s)
  end.

(** [NUMBER_RE]'s optional exponent: [e] or [E], an optional sign and at
    least one digit. *)
Definition match_exp (s : str) : str * str :=
  match s with
  | e :: s1 =>
      if (e =? 101) || (e =? 69) then
        let '(sign, s2) :=
          match s1 with
          | c :: s2 => if (c =? 45) || (c =? 43) then ([c], s2) else ([], s1)
          | [] => ([], s1)
          end in
        match span_digits s2 with
        | ([], _) => ([], s)
        | (ds, r) => (e :: sign ++ ds, r)
        end
      else ([], s)
  | [] => ([], s)
  end.

(** [match_number]: an integer when the number has neither a fraction nor
    an exponent, a float otherwise. *)
Definition match_number (s : str) : option (pyobj * str) :=
  let '(sign, s0) :=
    match s with
    | c :: s' => if c =? 45 then ([c], s') else ([], s)
    | [] => ([], s)
    end in
  '(digits, s1) ← match_int s0;
  let '(frac, s2) := match_frac s1 in
  let '(exp, s3) := match_exp s2 in
  match frac, exp with
  | [], [] =>
      Some (PyInt (if sign is [] then int_of_digits digits
                   else - int_of_digits digits)%Z, s3)
  | _, _ => Some (PyFloat (sign ++ digits ++ frac ++ exp), s3)
  end.

(** [scan_once] with [JSONObject] and [JSONArray].  [fuel] bounds the depth
    of calls; [json_loads] gives as much as the text can use
    ([json_loads_fuel]).

    - [scan_once fuel s] reads one value at the head of [s];
    - [array_items fuel s] is the loop of [JSONArray], [s] at the first
      element;
    - [object_items fuel s] is the loop of [JSONObject], [s] after the
      opening quote of a key. *)
Fixpoint scan_once (fuel : nat) (s : str) {struct fuel} : result (pyobj * str) :=
  match fuel with
  | O => Raise RecursionError
  | S fuel =>
    match s with
    | [] => Raise JSONDecodeError
    | c :: s' =>
      if c =? 34 then
        '(x, r) ← scanstring s'; Ok (PyStr x, r)
      else if c =? 123 then
        match skip_ws s' with
        | c1 :: s1 =>
            if c1 =? 125 then Ok (PyDict [], s1)
            else if c1 =? 34 then
              '(pairs, r) ← object_items fuel s1; Ok (PyDict (dict pairs), r)
            else Raise JSONDecodeError
        | [] => Raise JSONDecodeError
        end
      else if c =? 91 then
        match skip_ws s' with
        | c1 :: s1 =>
            if c1 =? 93 then Ok (PyList [], s1)
            else '(values, r) ← array_items fuel (c1 :: s1); Ok (PyList values, r)
        | [] => Raise JSONDecodeError
        end
      else if startswith s (py "null") then Ok (PyNone, drop 4 s)
      else if startswith s (py "true") then Ok (PyBool true, drop 4 s)
      else if startswith s (py "false") then Ok (PyBool false, drop 5 s)
      else
        match match_number s with
        | Some r => Ok r
        | None =>
            if startswith s (py "NaN") then Ok (PyFloat (py "NaN"), drop 3 s)
            else if startswith s (py "Infinity")
            then Ok (PyFloat (py "Infinity"), drop 8 s)
            else if startswith s (py "-Infinity")
            then Ok (PyFloat (py "-Infinity"), drop 9 s)
            else Raise JSONDecodeError
        end
    end
  end
with array_items (fuel : nat) (s : str) {struct fuel} : result (list pyobj * str) :=
  match fuel with
  | O => Raise RecursionError
  | S fuel =>
    '(value, r) ← scan_once fuel s;
    match skip_ws r with
    | c :: r1 =>
        if c =? 93 then Ok ([value], r1)
        else if c =? 44 then
          '(values, r2) ← array_items fuel (skip_ws r1); Ok (value :: values, r2)
        else Raise JSONDecodeError
    | [] => Raise JSONDecodeError
    end
  end
with object_items (fuel : nat) (s : str) {struct fuel}
    : result (list (str * pyobj) * str) :=
  match fuel with
  | O => Raise RecursionError
  | S fuel =>
    '(key, r) ← scanstring s;
    match skip_ws r with
    | c :: r1 =>
      if c =? 58 then
        '(value, r2) ← scan_once fuel (skip_ws r1);
        match skip_ws r2 with
        | c2 :: r3 =>
          if c2 =? 125 then Ok ([(key, value)], r3)
          else if c2 =? 44 then
            match skip_ws r3 with
            | c3 :: r4 =>
                if c3 =? 34 then
                  '(pairs, r5) ← object_items fuel r4; Ok ((key, value) :: pairs, r5)
                else Raise JSONDecodeError
            | [] => Raise JSONDecodeError
            end
          else Raise JSONDecodeError
        | [] => Raise JSONDecodeError
        end
      else Raise JSONDecodeError
    | [] => Raise JSONDecodeError
    end
  end.

(** The recursion budget [json_loads] gives the scanner. *)
Definition json_loads_fuel (s : str) : nat := S (2 * length s).

(** [json.loads(s)] for a [str]: no byte-order mark, one value between
    optional whitespace, and nothing after it. *)
Definition json_loads (s : str) : result pyobj :=
  if startswith s [0xfeff] then Raise JSONDecodeError
  else
    '(obj, r) ← scan_once (json_loads_fuel s) (skip_ws s);
    match skip_ws r with
    | [] => Ok obj
    | _ :: _ => Raise JSONDecodeError
    end.

(** ** json.dumps (default options: [ensure_ascii], separators [", "] and
    [": "]) *)

(** One lower-case hexadecimal digit. *)
Definition hex_digit (n : N) : N := if n <? 10 then 48 + n else 87 + n.

(** ['\\u{0:04x}'.format(n)] for [n < 0x10000] *)
Definition u_escape (n : N) : str :=
  [92; 117; hex_digit (n / 4096 mod 16); hex_digit (n / 256 mod 16);
   hex_digit (n / 16 mod 16); hex_digit (n mod 16)].

(** The replacement of one character in [encode_basestring_ascii]: the
    quote, the backslash and everything outside [' '..'~'] are escaped; a
    character above the Basic Multilingual Plane becomes a surrogate
    pair. *)
Definition escape_char (c : N) : str :=
  if c =? 92 then [92; 92]
  else if c =? 34 then [92; 34]
  else if c =? 8 then [92; 98]
  else if c =? 12 then [92; 102]
  else if c =? 10 then [92; 110]
  else if c =? 13 then [92; 114]
  else if c =? 9 then [92; 116]
  else if (32 <=? c) && (c <=? 126) then [c]
  else if c <? 0x10000 then u_escape c
  else
    let n := c - 0x10000 in
    u_escape (N.lor 0xd800 (N.land (N.shiftr n 10) 0x3ff))
    ++ u_escape (N.lor 0xdc00 (N.land n 0x3ff)).

Definition encode_str (s : str) : str :=
  [34] ++ concat (map escape_char s) ++ [34].

(** [sep.join(l)] *)
Fixpoint join (sep : str) (l : list str) : str :=
  match l with
  | [] => []
  | x :: l' => match l' with [] => x | _ :: _ => x ++ sep ++ join sep l' end
  end.

(** [int.__repr__] *)
Definition int_repr (z : Z) : str := py (NilZero.string_of_int (Z.to_int z)).

(** ** The world of a process: files, standard output, system calls *)

Inductive mode := ModeRead | ModeWrite | ModeAppend.

(** What a run does to the operating system, in order. *)
Inductive event :=
  | EvOpen (path : str) (m : mode)
  | EvWrite (path : str) (data : str)
  | EvClose (path : str)
  | EvExecve (path : str) (argv : list str) (environ : gmap str str).

(** Files are text, keyed by the path they were opened with. *)
Record world := World {
  fs : gmap str str;
  stdout : str;
  trace : list event;
}.

(** A statement: it reads and changes the world, and returns a value or
    raises. *)
Definition M (A : Type) : Type := world -> result A * world.

#[global] Instance M_ret : MRet M := fun A a w => (Ok a, w).
#[global] Instance M_bind : MBind M := fun A B f m w =>
  match m w with
  | (Ok a, w') => f a w'
  | (Raise e, w') => (Raise e, w')
  end.

(** A computation that does not touch the world. *)
Definition lift {A} (r : result A) : M A := fun w => (r, w).

Definition emit (e : event) (w : world) : world :=
  {| fs := fs w; stdout := stdout w; trace := trace w ++ [e] |}.

Definition set_file (path text : str) (w : world) : world :=
  {| fs := <[path := text]> (fs w); stdout := stdout w; trace := trace w |}.

Definition file_text (path : str) (w : world) : str := default [] (fs w !! path).

(** [open(path)]: the whole text of an existing file. *)
Definition open_read (path : str) : M str := fun w =>
  match fs w !! path with
  | Some text => (Ok text, emit (EvOpen path ModeRead) w)
  | None => (Raise FileNotFoundError, w)
  end.

(** [open(path, 'w')]: the file is created or emptied. *)
Definition open_write (path : str) : M unit := fun w =>
  (Ok (), emit (EvOpen path ModeWrite) (set_file path [] w)).

(** [open(path, 'a')]: the file is created if it is missing. *)
Definition open_append (path : str) : M unit := fun w =>
  (Ok (), emit (EvOpen path ModeAppend) (set_file path (file_text path w) w)).

(** [f.write(data)] on the file opened at [path] *)
Definition write (path data : str) : M unit := fun w =>
  (Ok (), emit (EvWrite path data) (set_file path (file_text path w ++ data) w)).

Definition close (path : str) : M unit := fun w => (Ok (), emit (EvClose path) w).

Definition add_stdout (out : str) (w : world) : world :=
  {| fs := fs w; stdout := stdout w ++ out; trace := trace w |}.

(** [print(s)] *)
Definition print (s : str) : M unit := fun w => (Ok (), add_stdout (s ++ [10]) w).

(** [os.execve(path, argv, environ)] *)
Definition execve (path : str) (argv : list str) (environ : gmap str str) : M unit :=
  fun w => (Ok (), emit (EvExecve path argv environ) w).

(** Text-mode reading translates [\r\n] and [\r] to [\n]. *)
Fixpoint universal_newlines (s : str) : str :=
  match s with
  | [] => []
  | c :: s' =>
      if c =? 13 then
        10 :: match s' with
              | [] => []
              | c' :: s'' =>
                  if c' =? 10 then universal_newlines s'' else universal_newlines s'
              end
      else c :: universal_newlines s'
  end.

(** The lines of a text, each with its [\n] when it has one. *)
Fixpoint splitlines (s : str) : list str :=
  match s with
  | [] => []
  | c :: s' =>
      if c =? 10 then [c] :: splitlines s'
      else match splitlines s' with
           | [] => [[c]]
           | l :: ls => (c :: l) :: ls
           end
  end.

(** [f.readlines()] on a file opened in text mode *)
Definition readlines (text : str) : list str := splitlines (universal_newlines text).

Section Scripts.

(** [float.__repr__] of the float a JSON number denotes, as a function of
    the number's text.  Floating point is not modelled: the function is
    left open, and nothing below depends on what it is. *)
Variable float_repr : str -> str.

Fixpoint json_dumps (o : pyobj) : str :=
  match o with
  | PyNone => py "null"
  | PyBool b => if b then py "true" else py "false"
  | PyInt z => int_repr z
  | PyFloat x => float_repr x
  | PyStr s => encode_str s
  | PyList l => py "[" ++ join (py ", ") (map json_dumps l) ++ py "]"
  | PyDict d =>
      py "{"
      ++ join (py ", ")
           (map (fun kv : str * pyobj =>
                   let (k, v) := kv in encode_str k ++ py ": " ++ json_dumps v) d)
      ++ py "}"
  end.

(** ** gen_compdb.py *)

Definition gcc : str := py "/usr/bin/gcc".

(** Lines 14-17: the loop over [args] that collects [srcs].  [a.endswith]
    needs [a] to be a [str]; [os.path.join(wd, a)] needs [wd] to be one. *)
Fixpoint scan_args (wd : pyobj) (args : list pyobj) (srcs : list str)
    : result (list str) :=
  match args with
  | [] => Ok srcs
  | a :: args' =>
      match a with
      | PyStr a =>
          if is_src a then
            match wd with
            | PyStr dir => scan_args wd args' (srcs ++ [os_path_join dir a])
            | _ => Raise TypeError
            end
          else scan_args wd args' srcs
      | _ => Raise AttributeError
      end
  end.

(** Lines 11-25: the body of the loop over the lines, on the line [l] and
    the database [db] built so far.  [last srcs] is [srcs[-1]], which is
    there exactly when [len(srcs) > 0]. *)
Definition loop_body (l : str) (db : list pyobj) : M (list pyobj) :=
  it ← lift (json_loads l);
  wd ← lift (getitem it (py "wd"));
  logged ← lift (getitem it (py "args"));
  args ← lift (list_add [PyStr gcc] logged);
  srcs ← lift (scan_args wd args []);
  match last srcs with
  | Some file =>
      mret (db ++ [PyDict [(py "directory", wd);
                           (py "arguments", PyList args);
                           (py "file", PyStr file)]])
  | None =>
      print (py "warning no src " ++ l);; mret db
  end.

(** Line 10: [for l in ls] *)
Fixpoint for_lines (ls : list str) (db : list pyobj) : M (list pyobj) :=
  match ls with
  | [] => mret db
  | l :: ls' => db' ← loop_body l db; for_lines ls' db'
  end.

Definition dst : str := py "compile_commands.json".

(** [sys.argv[i]] *)
Definition argv_at (argv : list str) (i : nat) : result str :=
  match argv !! i with Some a => Ok a | None => Raise IndexError end.

(** The whole script, run with the argument vector [argv]. *)
Definition gen_compdb (argv : list str) : M unit :=
  log_file ← lift (argv_at argv 1);
  text ← open_read log_file;
  let ls := readlines text in
  db ← for_lines ls [];
  open_write dst;;
  write dst (json_dumps (PyList db));;
  close dst.

(** ** cc.py *)

(** The whole script, run with the argument vector [argv] and the
    environment [environ] in the directory [cwd]. *)
Definition cc (argv : list str) (environ : gmap str str) (cwd : str) : M unit :=
  let log_file :=
    match environ !! py "CC_HOOK_COMPDB_LOG_FILE" with
    | Some path => path
    | None => py "cc_hook.txt"
    end in
  let args := drop 1 argv in
  let wd := cwd in
  open_append log_file;;
  write log_file (json_dumps (PyDict [(py "wd", PyStr wd);
                                      (py "args", PyList (PyStr <$> args))]));;
  write log_file [10];;
  close log_file;;
  let cc := gcc in
  execve cc (cc :: args) environ.

(** ** Vocabulary of the statements *)

(** The database entry with the given fields, all strings. *)
Definition entry (directory : str) (arguments : list str) (file : str) : pyobj :=
  PyDict [(py "directory", PyStr directory);
          (py "arguments", PyList (PyStr <$> arguments));
          (py "file", PyStr file)].

(** The line [l] is the JSON text of an object whose ["wd"] is the string
    [wd] and whose ["args"] is the list of strings [args]. *)
Definition is_record (l : str) (wd : str) (args : list str) : Prop :=
  exists it, json_loads l = Ok it
    /\ getitem it (py "wd") = Ok (PyStr wd)
    /\ getitem it (py "args") = Ok (PyList (PyStr <$> args)).

(** No element of [v] is recognized. *)
Definition no_src (v : list str) : Prop := Forall (fun a => is_src a = false) v.

(** [a] is the last recognized element of [v]. *)
Definition last_src (v : list str) (a : str) : Prop :=
  exists pre post, v = pre ++ a :: post /\ is_src a = true /\ no_src post.

(** The line is not an object with the two keys: its text is not JSON, or
    indexing the decoded value by ["wd"] or by ["args"] raises. *)
Definition malformed (l : str) : Prop :=
  match json_loads l with
  | Raise _ => True
  | Ok it =>
      raised (getitem it (py "wd")) = true \/ raised (getitem it (py "args")) = true
  end.

(** What one line contributes, as a function of the line alone: an entry,
    nothing (and a warning), or an exception. *)
Definition line_result (l : str) : result (option pyobj) :=
  it ← json_loads l;
  wd ← getitem it (py "wd");
  logged ← getitem it (py "args");
  args ← list_add [PyStr gcc] logged;
  srcs ← scan_args wd args [];
  mret (match last srcs with
        | Some file => Some (PyDict [(py "directory", wd);
                                     (py "arguments", PyList args);
                                     (py "file", PyStr file)])
        | None => None
        end).

(** The text [print] adds to standard output for the line [l]. *)
Definition warning (l : str) : str := py "warning no src " ++ l ++ [10].

(** The lines of [out] that are warnings. *)
Definition warning_lines (out : str) : list str :=
  List.filter (fun ln => startswith ln (py "warning no src ")) (splitlines out).

(** The world after a run on the log [log_file] that printed [out] and
    wrote [data] to the database file. *)
Definition written (log_file data out : str) (w : world) : world :=
  {| fs := <[dst := data]> (fs w);
     stdout := stdout w ++ out;
     trace := trace w ++ [EvOpen log_file ModeRead; EvOpen dst ModeWrite;
                          EvWrite dst data; EvClose dst] |}.

(** The world after a run on the log [log_file] that printed [out] and was
    aborted by an exception in the loop: no file has changed, and the log
    is the only file that was opened. *)
Definition aborted (log_file out : str) (w : world) : world :=
  {| fs := fs w;
     stdout := stdout w ++ out;
     trace := trace w ++ [EvOpen log_file ModeRead] |}.

(** What a line that does not raise is, and what it adds to the database:
    it is an object with both keys whose ["args"] is a list of strings;
    when nothing in the full vector is recognized it adds nothing, and
    otherwise its ["wd"] is a string and it adds the entry of its last
    recognized argument. *)
Definition contributes (l : str) (r : option pyobj) : Prop :=
  exists it wd A,
    json_loads l = Ok it /\ getitem it (py "wd") = Ok wd
    /\ getitem it (py "args") = Ok (PyList (PyStr <$> A))
    /\ ((no_src (gcc :: A) /\ r = None) \/
        (exists W a, wd = PyStr W /\ last_src (gcc :: A) a
                     /\ r = Some (entry W (gcc :: A) (os_path_join W a)))).

(** A printable ASCII character, [' '..'~']. *)
Definition printable (c : N) : Prop := 32 <= c <= 126.

(** The text of the JSON object [{"wd": wd, "args": args}] with the keys in
    that order, as [json.dumps] lays it out. *)
Definition record_text (wd : str) (args : list str) : str :=
  dq "{'wd': " ++ encode_str wd ++ dq ", 'args': ["
  ++ join (py ", ") (encode_str <$> args) ++ py "]}".

(** The world after a run of the wrapper that logged to [log_file]. *)
Definition wrapped (log_file record : str) (args : list str)
    (environ : gmap str str) (w : world) : world :=
  {| fs := <[log_file := file_text log_file w ++ record ++ [10]]> (fs w);
     stdout := stdout w;
     trace := trace w ++ [EvOpen log_file ModeAppend; EvWrite log_file record;
                          EvWrite log_file [10]; EvClose log_file;
                          EvExecve gcc (gcc :: args) environ] |}.

(** The text [t] after a [\uXXXX] escape starts with a second such escape
    that [scanstring] would pair with a high surrogate before it (or
    reject). *)
Definition low_escape_ahead (t : str) : bool :=
  match t with
  | b :: u :: g1 :: g2 :: g3 :: g4 :: _ =>
      (b =? 92) && (u =? 117)
      && match hex4 g1 g2 g3 g4 with
         | Some uni2 => is_low_surrogate uni2
         | None => true
         end
  | _ => false
  end.

(** A [str] that [json.dumps] and [json.loads] carry unchanged: every
    code point is below [0x110000], and no high surrogate stands right
    before a low one (escaped, the two would read back as one character). *)
Fixpoint plain (s : str) : bool :=
  match s with
  | [] => true
  | c :: s' =>
      (c <? 0x110000)
      && negb (is_high_surrogate c
               && match s' with c' :: _ => is_low_surrogate c' | [] => false end)
      && plain s'
  end.

(** ** Example inputs *)

(** The line of the scenario of the specification. *)
Definition scenario_line : str :=
  dq "{'wd': '/home/u/proj', 'args': ['-c', 'main.cpp', '-o', 'main.o']}" ++ [10].

(** A line with no source file. *)
Definition version_line : str := dq "{'wd': '/tmp', 'args': ['--version']}" ++ [10].

(** A line whose source file is given by an absolute path. *)
Definition absolute_line : str :=
  dq "{'wd': '/home/u/proj', 'args': ['-c', '/src/main.c']}" ++ [10].

(** A line without the key ["args"]. *)
Definition keyless_line : str := dq "{'wd': '/tmp'}" ++ [10].

(** A world whose only file is the log [cc_hook.txt], holding [text]. *)
Definition world_with (text : str) : world :=
  {| fs := {[ py "cc_hook.txt" := text ]}; stdout := []; trace := [] |}.

Definition gen_argv : list str := [py "gen_compdb.py"; py "cc_hook.txt"].

(** ** Vocabulary of the further properties *)

(** What the loop prints for the lines [ls] when their contributions are
    [rs]: the warning of each line that gives no entry, in order. *)
Fixpoint warnings_of (ls : list str) (rs : list (option pyobj)) : str :=
  match ls, rs with
  | l :: ls', r :: rs' =>
      match r with
      | None => py "warning no src " ++ l ++ [10]
      | Some _ => []
      end ++ warnings_of ls' rs'
  | _, _ => []
  end.




(** An entry whose strings are all [plain]. *)
Definition plain_entry (e : pyobj) : Prop :=
  exists directory arguments file,
    e = entry directory arguments file
    /\ plain directory = true
    /\ Forall (fun a => plain a = true) arguments
    /\ plain file = true.

(** The entry of [scenario_line]. *)
Definition scenario_entry : pyobj :=
  entry (py "/home/u/proj") [gcc; py "-c"; py "main.cpp"; py "-o"; py "main.o"]
        (py "/home/u/proj/main.cpp").



(** * Properties *)

Lemma startswith_spec (s prefix : str) :
  startswith s prefix = true <-> exists t, s = prefix ++ t.
Proof.
  unfold startswith. rewrite bool_decide_eq_true. split.
  - intros H. exists (drop (length prefix) s).
    etrans; [symmetry; apply (take_drop (length prefix))|]. by rewrite H.
  - intros [t ->]. by rewrite take_app_length.
Qed.

Lemma endswith_spec (s suffix : str) :
  endswith s suffix = true <-> exists p, s = p ++ suffix.
Proof.
  unfold endswith. rewrite andb_true_iff, bool_decide_eq_true, Nat.leb_le.
  split.
  - intros [_ H]. exists (take (length s - length suffix)%nat s).
    etrans; [symmetry; apply (take_drop (length s - length suffix))|].
    by rewrite H.
  - intros [p ->]. rewrite length_app. split; [lia|].
    replace (length p + length suffix - length suffix)%nat with (length p) by lia.
    by rewrite drop_app_length.
Qed.

Lemma endswith_app (p s suffix : str) :
  endswith s suffix = true -> endswith (p ++ s) suffix = true.
Proof.
  rewrite !endswith_spec. intros [q ->]. exists (p ++ q). by rewrite app_assoc.
Qed.

Lemma is_src_spec (a : str) :
  is_src a = true <->
  (exists p, a = p ++ py ".c") \/ (exists p, a = p ++ py ".cc") \/
  (exists p, a = p ++ py ".cpp").
Proof.
  unfold is_src. rewrite !orb_true_iff, !endswith_spec. tauto.
Qed.

Lemma is_src_app (p a : str) : is_src a = true -> is_src (p ++ a) = true.
Proof.
  unfold is_src. rewrite !orb_true_iff.
  intros [[H|H]|H]; eauto using endswith_app.
Qed.


(** *** os.path.join *)

Lemma os_path_join_absolute (a b : str) :
  startswith b (py "/") = true -> os_path_join a b = b.
Proof. unfold os_path_join. by intros ->. Qed.

Lemma os_path_join_suffix (a b : str) : exists p, os_path_join a b = p ++ b.
Proof.
  unfold os_path_join. destruct (startswith b (py "/")); [by exists []|].
  destruct (_ || _); [by exists a|]. exists (a ++ py "/"). by rewrite <- app_assoc.
Qed.

Lemma is_src_os_path_join (a b : str) :
  is_src b = true -> is_src (os_path_join a b) = true.
Proof.
  intros H. destruct (os_path_join_suffix a b) as [p ->]. by apply is_src_app.
Qed.

(** *** The scan of the arguments *)

Lemma scan_args_no_src (wd : pyobj) (A : list str) (srcs : list str) :
  no_src A -> scan_args wd (PyStr <$> A) srcs = Ok srcs.
Proof.
  induction 1 as [|a A Ha _ IH]; simpl; [done|]. by rewrite Ha.
Qed.

Lemma scan_args_last_src (W : str) (pre post : list str) (a : str) (srcs : list str) :
  is_src a = true -> no_src post ->
  exists srcs', scan_args (PyStr W) (PyStr <$> (pre ++ a :: post)) srcs
                = Ok (srcs' ++ [os_path_join W a]).
Proof.
  intros Ha Hpost. revert srcs.
  induction pre as [|x pre IH]; intros srcs; simpl.
  - rewrite Ha. exists srcs. by apply scan_args_no_src.
  - destruct (is_src x); apply IH.
Qed.

Lemma scan_args_inv (wd : pyobj) (args : list pyobj) (srcs out : list str) :
  scan_args wd args srcs = Ok out ->
  exists A, args = PyStr <$> A /\
    ((no_src A /\ out = srcs) \/
     (exists W a, wd = PyStr W /\ last_src A a
                  /\ last out = Some (os_path_join W a))).
Proof.
  revert srcs. induction args as [|x args IH]; intros srcs; simpl.
  - intros [= <-]. exists []. split; [done|]. left. split; [constructor|done].
  - destruct x as [| | | |s| |]; try discriminate.
    destruct (is_src s) eqn:Hs.
    + destruct wd as [| | | |W| |]; try discriminate.
      intros H. destruct (IH _ H) as (A & -> & [[HA ->]|(W' & a & HW & Ha & Hl)]).
      * exists (s :: A). split; [done|]. right. exists W, s.
        split; [done|]. split; [by exists [], A|]. apply last_snoc.
      * exists (s :: A). split; [done|]. right. exists W', a.
        split; [done|]. split; [|done].
        destruct Ha as (pre & post & -> & ? & ?). by exists (s :: pre), post.
    + intros H. destruct (IH _ H) as (A & -> & [[HA ->]|(W' & a & HW & Ha & Hl)]).
      * exists (s :: A). split; [done|]. left. split; [by constructor|done].
      * exists (s :: A). split; [done|]. right. exists W', a.
        split; [done|]. split; [|done].
        destruct Ha as (pre & post & -> & ? & ?). by exists (s :: pre), post.
Qed.



(** A vector has a last recognized element or none at all, never both. *)
Lemma no_src_last_src (v : list str) (a : str) : no_src v -> last_src v a -> False.
Proof.
  intros Hv (pre & post & -> & Ha & _). unfold no_src in Hv.
  rewrite Forall_app, Forall_cons in Hv. destruct Hv as (_ & Hv & _). congruence.
Qed.

(** *** One line *)

Ltac rsimpl := cbn [mbind result_bind mret result_ret list_add app].
Ltac msimpl :=
  unfold mbind, M_bind, result_bind, mret, M_ret, result_ret, lift; cbv beta iota.

Lemma line_result_entry (l W : str) (A : list str) (a : str) :
  is_record l W A -> last_src (gcc :: A) a ->
  line_result l = Ok (Some (entry W (gcc :: A) (os_path_join W a))).
Proof.
  intros (it & Hit & Hwd & Hargs) (pre & post & Hv & Ha & Hpost).
  unfold line_result. rewrite Hit. rsimpl. rewrite Hwd. rsimpl. rewrite Hargs. rsimpl.
  change (PyStr gcc :: (PyStr <$> A)) with (PyStr <$> (gcc :: A)). rewrite Hv.
  destruct (scan_args_last_src W pre post a [] Ha Hpost) as [srcs' ->].
  rsimpl. by rewrite last_snoc.
Qed.

Lemma line_result_warning (l : str) (it wd : pyobj) (A : list str) :
  json_loads l = Ok it ->
  getitem it (py "wd") = Ok wd ->
  getitem it (py "args") = Ok (PyList (PyStr <$> A)) ->
  no_src (gcc :: A) ->
  line_result l = Ok None.
Proof.
  intros Hit Hwd Hargs Hno.
  unfold line_result. rewrite Hit. rsimpl. rewrite Hwd. rsimpl. rewrite Hargs. rsimpl.
  change (PyStr gcc :: (PyStr <$> A)) with (PyStr <$> (gcc :: A)).
  by rewrite scan_args_no_src.
Qed.

Lemma line_result_malformed (l : str) : malformed l -> raised (line_result l) = true.
Proof.
  unfold malformed, line_result. destruct (json_loads l) as [it|e]; simpl; [|done].
  destruct (getitem it (py "wd")) as [wd|e]; simpl; [|done].
  destruct (getitem it (py "args")) as [logged|e]; simpl; [|done].
  intros [?|?]; discriminate.
Qed.

Lemma line_result_inv (l : str) (r : option pyobj) :
  line_result l = Ok r -> contributes l r.
Proof.
  unfold line_result. destruct (json_loads l) as [it|e] eqn:Hit; rsimpl; [|done].
  destruct (getitem it (py "wd")) as [wd|e] eqn:Hwd; rsimpl; [|done].
  destruct (getitem it (py "args")) as [logged|e] eqn:Hargs; rsimpl; [|done].
  destruct logged as [| | | | |items|]; rsimpl; try done.
  destruct (scan_args wd (PyStr gcc :: items) []) as [srcs|e] eqn:Hscan; rsimpl; [|done].
  intros [= <-]. unfold contributes. exists it, wd.
  destruct (scan_args_inv _ _ _ _ Hscan) as (V & HV & Hcases).
  destruct V as [|g A]; [done|]. injection HV as <- ->.
  exists A. split; [done|]. split; [done|]. split; [done|].
  destruct Hcases as [[Hno ->]|(W & a & -> & Ha & Hlast)].
  - by left.
  - right. exists W, a. by rewrite Hlast.
Qed.

Lemma loop_body_line_result (l : str) (db : list pyobj) (w : world) :
  loop_body l db w =
  match line_result l with
  | Ok (Some e) => (Ok (db ++ [e]), w)
  | Ok None => (Ok db, add_stdout (warning l) w)
  | Raise e => (Raise e, w)
  end.
Proof.
  unfold loop_body, line_result. msimpl.
  destruct (json_loads l) as [it|e]; msimpl; [|done].
  destruct (getitem it (py "wd")) as [wd|e]; msimpl; [|done].
  destruct (getitem it (py "args")) as [logged|e]; msimpl; [|done].
  destruct (list_add [PyStr gcc] logged) as [args|e]; msimpl; [|done].
  destruct (scan_args wd args []) as [srcs|e]; msimpl; [|done].
  destruct (last srcs); msimpl; [done|].
  unfold print, warning. by rewrite <- app_assoc.
Qed.

(** *** The loop over the lines *)

Lemma add_stdout_nil (w : world) : add_stdout [] w = w.
Proof. destruct w. unfold add_stdout. simpl. by rewrite app_nil_r. Qed.

Lemma add_stdout_add_stdout (o1 o2 : str) (w : world) :
  add_stdout o2 (add_stdout o1 w) = add_stdout (o1 ++ o2) w.
Proof. unfold add_stdout. simpl. by rewrite app_assoc. Qed.

(** The loop only prints: its result and what it prints are functions of
    the lines and the database it starts from. *)
Lemma for_lines_pure (ls : list str) (db : list pyobj) :
  exists r out, forall w, for_lines ls db w = (r, add_stdout out w).
Proof.
  revert db. induction ls as [|l ls IH]; intros db; simpl.
  - exists (Ok db), []. intros w. by rewrite add_stdout_nil.
  - unfold mbind, M_bind.
    destruct (line_result l) as [[e|]|e] eqn:Hl.
    + destruct (IH (db ++ [e])) as (r & out & H). exists r, out. intros w.
      rewrite loop_body_line_result, Hl. apply H.
    + destruct (IH db) as (r & out & H). exists r, (warning l ++ out). intros w.
      rewrite loop_body_line_result, Hl, H. by rewrite add_stdout_add_stdout.
    + exists (Raise e), []. intros w.
      rewrite loop_body_line_result, Hl. by rewrite add_stdout_nil.
Qed.

Lemma for_lines_raises (ls : list str) (db : list pyobj) (w : world) (l : str) :
  l ∈ ls -> raised (line_result l) = true -> raised (for_lines ls db w).1 = true.
Proof.
  intros Hin Hl. revert db w.
  induction ls as [|l' ls IH]; intros db w; [by apply elem_of_nil in Hin|].
  simpl. unfold mbind, M_bind. rewrite loop_body_line_result.
  apply elem_of_cons in Hin as [->|Hin].
  - by destruct (line_result l') as [[e|]|e].
  - destruct (line_result l') as [[e|]|e]; [by apply IH|by apply IH|done].
Qed.

(** The warnings of the lines that give no entry, in order. *)
Lemma for_lines_ok (ls : list str) (rs : list (option pyobj)) (db : list pyobj)
    (w : world) :
  Forall2 (fun l r => line_result l = Ok r) ls rs ->
  exists out,
    for_lines ls db w = (Ok (db ++ omap id rs), add_stdout out w)
    /\ (Forall is_Some rs -> out = []).
Proof.
  intros H. revert db w. induction H as [|l r ls rs Hl _ IH]; intros db w; simpl.
  - exists []. by rewrite add_stdout_nil, app_nil_r.
  - unfold mbind, M_bind. rewrite loop_body_line_result, Hl. destruct r as [e|]; simpl.
    + destruct (IH (db ++ [e]) w) as (out & -> & Hout). exists out.
      rewrite <- app_assoc. split; [done|]. intros Hs. apply Hout.
      by apply Forall_cons in Hs as [_ ?].
    + destruct (IH db (add_stdout (warning l) w)) as (out & -> & Hout).
      exists (warning l ++ out). rewrite add_stdout_add_stdout. split; [done|].
      intros Hs. apply Forall_cons in Hs as [[? [=]] _].
Qed.

Lemma for_lines_ok_inv (ls : list str) (db db' : list pyobj) (w w' : world) :
  for_lines ls db w = (Ok db', w') ->
  exists rs, Forall2 (fun l r => line_result l = Ok r) ls rs /\ db' = db ++ omap id rs.
Proof.
  revert db w. induction ls as [|l ls IH]; intros db w; simpl.
  - intros [= <- _]. exists []. by rewrite app_nil_r.
  - unfold mbind, M_bind. rewrite loop_body_line_result.
    destruct (line_result l) as [[e|]|e] eqn:Hl; [| |done].
    + intros H. destruct (IH _ _ H) as (rs & Hrs & ->). exists (Some e :: rs).
      split; [by constructor|]. simpl. by rewrite <- app_assoc.
    + intros H. destruct (IH _ _ H) as (rs & Hrs & ->). exists (None :: rs).
      split; [by constructor|]. done.
Qed.

Lemma omap_id_Some {A} (l : list A) : omap id (Some <$> l) = l.
Proof. induction l as [|x l IH]; [done|]. simpl. by f_equal. Qed.

Lemma Forall_is_Some_fmap {A} (l : list A) : Forall is_Some (Some <$> l).
Proof. induction l; constructor; eauto. Qed.

(** *** The whole generator *)

Lemma gen_compdb_run (argv : list str) (log_file text : str)
    (r : result (list pyobj)) (out : str) (w : world) :
  argv !! 1%nat = Some log_file ->
  fs w !! log_file = Some text ->
  (forall w', for_lines (readlines text) [] w' = (r, add_stdout out w')) ->
  gen_compdb argv w =
  match r with
  | Ok db => (Ok (), written log_file (json_dumps (PyList db)) out w)
  | Raise e => (Raise e, aborted log_file out w)
  end.
Proof.
  intros Hargv Hfs Hloop. unfold gen_compdb, argv_at. rewrite Hargv. msimpl.
  unfold open_read. rewrite Hfs, Hloop. destruct r as [db|e]; [|done].
  unfold open_write, write, close, written, emit, set_file, add_stdout, file_text.
  cbn [fs stdout trace]. rewrite lookup_insert_eq. cbn [default app].
  rewrite insert_insert_eq, <- !app_assoc. done.
Qed.

(** *** Lines of a text *)

Lemma splitlines_no_newline (s : str) : 10 ∉ s -> s <> [] -> splitlines s = [s].
Proof.
  induction s as [|c s IH]; [done|]. intros Hc _.
  apply not_elem_of_cons in Hc as [Hc Hs]. simpl.
  destruct (N.eqb_spec c 10) as [?|_]; [done|].
  destruct s as [|c' s]; [done|]. by rewrite IH.
Qed.

Lemma splitlines_newline (s t : str) :
  10 ∉ s -> splitlines (s ++ 10 :: t) = (s ++ [10]) :: splitlines t.
Proof.
  induction s as [|c s IH]; intros Hc; [done|].
  apply not_elem_of_cons in Hc as [Hc Hs]. simpl.
  destruct (N.eqb_spec c 10) as [?|_]; [done|]. by rewrite IH.
Qed.

(** A line of a text has its only newline at its end, if it has one. *)
Lemma splitlines_line (text l : str) :
  l ∈ splitlines text -> (exists body, l = body ++ [10] /\ 10 ∉ body) \/ 10 ∉ l.
Proof.
  revert l. induction text as [|c text IH]; intros l; simpl.
  - intros H. by apply elem_of_nil in H.
  - destruct (N.eqb_spec c 10) as [->|Hc].
    + intros [->|H]%elem_of_cons; [|by apply IH].
      left. exists []. split; [done|]. apply not_elem_of_nil.
    + destruct (splitlines text) as [|l0 ls].
      * intros ->%list_elem_of_singleton. right.
        apply not_elem_of_cons. split; [done|]. apply not_elem_of_nil.
      * intros [->|H]%elem_of_cons.
        -- destruct (IH l0) as [(body & -> & Hb)|Hl0]; [left|..].
           ++ left. exists (c :: body). split; [done|].
              apply not_elem_of_cons. by split.
           ++ right. apply not_elem_of_cons. by split.
        -- apply IH. by right.
Qed.

Lemma not_elem_of_forallb (c : N) (s : str) :
  forallb (fun x => negb (x =? c)) s = true -> c ∉ s.
Proof.
  induction s as [|x s IH]; simpl; [intros _; apply not_elem_of_nil|].
  intros [Hx Hs]%andb_true_iff. apply not_elem_of_cons. split; [|by apply IH].
  intros ->. by rewrite N.eqb_refl in Hx.
Qed.

Lemma warning_prefix_no_newline : 10 ∉ py "warning no src ".
Proof. apply not_elem_of_forallb. vm_compute. reflexivity. Qed.

(** *** The text json.dumps produces for strings *)

Lemma hex_digit_printable (n : N) : n < 16 -> printable (hex_digit n).
Proof. unfold printable, hex_digit. destruct (N.ltb_spec n 10); lia. Qed.

Lemma u_escape_printable (n : N) : Forall printable (u_escape n).
Proof.
  unfold u_escape.
  repeat (apply Forall_cons; split;
          [first [apply hex_digit_printable; apply N.mod_lt | unfold printable]; lia|]).
  constructor.
Qed.

Lemma escape_char_printable (c : N) : Forall printable (escape_char c).
Proof.
  unfold escape_char.
  repeat (destruct (_ =? _);
          [repeat (apply Forall_cons; split; [unfold printable; lia|]); constructor|]).
  destruct ((32 <=? c) && (c <=? 126)) eqn:Hc.
  - apply andb_true_iff in Hc as [?%N.leb_le ?%N.leb_le].
    apply Forall_cons. split; [by unfold printable|constructor].
  - destruct (c <? 65536); [apply u_escape_printable|].
    apply Forall_app. split; apply u_escape_printable.
Qed.

Lemma encode_str_printable (s : str) : Forall printable (encode_str s).
Proof.
  unfold encode_str. apply Forall_app. split; [|apply Forall_app; split].
  - apply Forall_cons. split; [unfold printable; lia|constructor].
  - induction s as [|c s IH]; simpl; [constructor|].
    apply Forall_app. split; [apply escape_char_printable|exact IH].
  - apply Forall_cons. split; [unfold printable; lia|constructor].
Qed.

Lemma join_printable (sep : str) (l : list str) :
  Forall printable sep -> Forall (Forall printable) l -> Forall printable (join sep l).
Proof.
  intros Hsep. induction 1 as [|x l Hx Hl IH]; simpl; [constructor|].
  destruct l as [|y l]; [exact Hx|].
  apply Forall_app. split; [exact Hx|]. apply Forall_app. split; [exact Hsep|exact IH].
Qed.

Lemma printable_forallb (s : str) :
  forallb (fun c => (32 <=? c) && (c <=? 126)) s = true -> Forall printable s.
Proof.
  induction s as [|c s IH]; simpl; [constructor|].
  intros [[?%N.leb_le ?%N.leb_le]%andb_true_iff Hs]%andb_true_iff.
  constructor; [by unfold printable|by apply IH].
Qed.

Lemma record_text_printable (wd : str) (args : list str) :
  Forall printable (record_text wd args).
Proof.
  assert (Hjoin : Forall printable (join (py ", ") (encode_str <$> args))).
  { apply join_printable; [apply printable_forallb; vm_compute; reflexivity|].
    induction args; [constructor|]. rewrite fmap_cons.
    constructor; [apply encode_str_printable|done]. }
  unfold record_text. rewrite !Forall_app.
  repeat split;
    [apply printable_forallb; vm_compute; reflexivity
    |apply encode_str_printable
    |apply printable_forallb; vm_compute; reflexivity
    |exact Hjoin
    |apply printable_forallb; vm_compute; reflexivity].
Qed.

Lemma printable_no_newline (s : str) : Forall printable s -> 10 ∉ s.
Proof.
  intros Hs Hin. rewrite Forall_forall in Hs. apply Hs in Hin.
  unfold printable in Hin. lia.
Qed.

Lemma json_dumps_record (wd : str) (args : list str) :
  json_dumps (PyDict [(py "wd", PyStr wd); (py "args", PyList (PyStr <$> args))])
  = record_text wd args.
Proof.
  unfold record_text. cbn [json_dumps map join].
  replace (map json_dumps (PyStr <$> args)) with (encode_str <$> args).
  - change (encode_str (py "wd")) with (dq "'wd'").
    change (encode_str (py "args")) with (dq "'args'").
    rewrite <- !app_assoc. reflexivity.
  - induction args as [|a args IH]; [done|]. rewrite !fmap_cons. simpl. by rewrite IH.
Qed.

(** *** The decoder always has enough fuel *)

Lemma skip_ws_length (s : str) : (length (skip_ws s) <= length s)%nat.
Proof. induction s as [|c s IH]; simpl; [lia|]. destruct (is_ws c); simpl; lia. Qed.

Lemma cons_chr_ok (c : N) (m : result (str * str)) (x r : str) :
  cons_chr c m = Ok (x, r) -> exists x', m = Ok (x', r).
Proof. destruct m as [[x' r']|e]; [|done]. intros [= <- <-]. by exists x'. Qed.

Lemma scanstring_length (s x r : str) :
  scanstring s = Ok (x, r) -> (length r < length s)%nat.
Proof.
  revert x r. induction s as [s IH] using (induction_ltof1 _ (@length N)).
  unfold ltof in IH. intros x r.
  assert (Htail : forall c t, (length t < length s)%nat ->
            cons_chr c (scanstring t) = Ok (x, r) -> (length r < length s)%nat).
  { intros c t Ht [x' H]%cons_chr_ok. apply IH in H; [lia|done]. }
  destruct s as [|c s1]; [done|]. simpl in *.
  destruct (c =? 34); [intros [= <- <-]; lia|].
  destruct (c =? 92); [|destruct (c <? 32); [done|apply Htail; lia]].
  destruct s1 as [|e s2]; [done|]. simpl in *.
  destruct (e =? 117);
    [|destruct (backslash e); [apply Htail; lia|done]].
  destruct s2 as [|h1 [|h2 [|h3 [|h4 s3]]]]; try done. simpl in *.
  destruct (hex4 h1 h2 h3 h4) as [uni|]; [|done].
  destruct s3 as [|b [|u [|g1 [|g2 [|g3 [|g4 s4]]]]]];
    try (apply Htail; simpl; lia).
  destruct (_ && _ && _); [|apply Htail; simpl; lia].
  destruct (hex4 g1 g2 g3 g4) as [uni2|]; [|done].
  destruct (is_low_surrogate uni2); apply Htail; simpl; lia.
Qed.

Lemma span_digits_length (s d r : str) :
  span_digits s = (d, r) -> (length r <= length s)%nat.
Proof.
  revert d r. induction s as [|c s IH]; intros d r; simpl; [intros [= <- <-]; simpl; lia|].
  destruct (is_digit c); [|intros [= <- <-]; simpl; lia].
  destruct (span_digits s) as [d' r']. intros [= <- <-].
  specialize (IH _ _ eq_refl). lia.
Qed.

Lemma match_int_length (s d r : str) :
  match_int s = Some (d, r) -> (length r < length s)%nat.
Proof.
  destruct s as [|c s]; simpl; [done|].
  destruct (c =? 48); [intros [= <- <-]; lia|].
  destruct (is_digit c); [|done].
  destruct (span_digits s) as [d' r'] eqn:E. intros [= <- <-].
  apply span_digits_length in E. lia.
Qed.

Lemma match_frac_length (s f r : str) :
  match_frac s = (f, r) -> (length r <= length s)%nat.
Proof.
  unfold match_frac. destruct s as [|dot [|d s]]; try (intros [= <- <-]; simpl; lia).
  destruct (_ && _); [|intros [= <- <-]; simpl; lia].
  destruct (span_digits (d :: s)) as [ds r'] eqn:E. intros [= <- <-].
  apply span_digits_length in E. simpl in *. lia.
Qed.

Lemma match_exp_length (s x r : str) :
  match_exp s = (x, r) -> (length r <= length s)%nat.
Proof.
  unfold match_exp. destruct s as [|e s1]; [intros [= <- <-]; simpl; lia|].
  destruct (_ || _); [|intros [= <- <-]; simpl; lia].
  assert (forall sign s2, (length s2 <= length s1)%nat ->
            match span_digits s2 with
            | ([], _) => ([], e :: s1)
            | (ds, r0) => (e :: sign ++ ds, r0)
            end = (x, r) -> (length r <= length (e :: s1))%nat) as Hgo.
  { intros sign s2 Hs2. destruct (span_digits s2) as [[|d ds] r0] eqn:E;
      intros [= <- <-]; [simpl; lia|].
    apply span_digits_length in E. simpl. lia. }
  destruct s1 as [|c s2]; [apply (Hgo []); simpl; lia|].
  destruct (_ || _); [apply (Hgo [c])|apply (Hgo [])]; simpl; lia.
Qed.

Lemma match_number_length (s : str) (v : pyobj) (r : str) :
  match_number s = Some (v, r) -> (length r < length s)%nat.
Proof.
  unfold match_number.
  assert (forall sign s0, (length s0 <= length s)%nat ->
            ('(digits, s1) ← match_int s0;
             let '(frac, s2) := match_frac s1 in
             let '(exp, s3) := match_exp s2 in
             match frac, exp with
             | [], [] =>
                 Some (PyInt (if sign is [] then int_of_digits digits
                              else - int_of_digits digits)%Z, s3)
             | _, _ => Some (PyFloat (sign ++ digits ++ frac ++ exp), s3)
             end) = Some (v, r) -> (length r < length s)%nat) as Hgo.
  { intros sign s0 Hs0. destruct (match_int s0) as [[digits s1]|] eqn:E1; [|done].
    simpl. destruct (match_frac s1) as [frac s2] eqn:E2.
    destruct (match_exp s2) as [exp s3] eqn:E3.
    apply match_int_length in E1. apply match_frac_length in E2.
    apply match_exp_length in E3.
    destruct frac, exp; intros [= <- <-]; lia. }
  destruct s as [|c s']; [apply (Hgo []); simpl; lia|].
  destruct (c =? 45); [apply (Hgo [c])|apply (Hgo [])]; simpl; lia.
Qed.

(** A value takes at least one character of the text. *)
Lemma scan_once_length (fuel : nat) :
  (forall s v r, scan_once fuel s = Ok (v, r) -> (length r < length s)%nat)
  /\ (forall s vs r, array_items fuel s = Ok (vs, r) -> (length r < length s)%nat)
  /\ (forall s kvs r, object_items fuel s = Ok (kvs, r) -> (length r < length s)%nat).
Proof.
  induction fuel as [|fuel (IHv & IHa & IHo)]; [done|].
  split; [|split].
  - intros s v r. destruct s as [|c s']; [done|]. cbn [scan_once].
    pose proof (skip_ws_length s') as Hws.
    destruct (c =? 34).
    { destruct (scanstring s') as [[x r0]|] eqn:E; [|done]. intros [= <- <-].
      apply scanstring_length in E. simpl. lia. }
    destruct (c =? 123).
    { destruct (skip_ws s') as [|c1 s1]; [done|]. simpl in Hws.
      destruct (c1 =? 125); [intros [= <- <-]; simpl; lia|].
      destruct (c1 =? 34); [|done].
      destruct (object_items fuel s1) as [[pairs r0]|] eqn:E; [|done].
      intros [= <- <-]. apply IHo in E. simpl. lia. }
    destruct (c =? 91).
    { destruct (skip_ws s') as [|c1 s1]; [done|]. simpl in Hws.
      destruct (c1 =? 93); [intros [= <- <-]; simpl; lia|].
      destruct (array_items fuel (c1 :: s1)) as [[values r0]|] eqn:E; [|done].
      intros [= <- <-]. apply IHa in E. simpl in *. lia. }
    repeat (destruct (startswith _ _);
            [intros [= <- <-]; rewrite length_drop; simpl; lia|]).
    destruct (match_number (c :: s')) as [[v' r']|] eqn:E.
    { intros [= <- <-]. by apply match_number_length in E. }
    repeat (destruct (startswith _ _);
            [intros [= <- <-]; rewrite length_drop; simpl; lia|]).
    done.
  - intros s vs r. cbn [array_items].
    destruct (scan_once fuel s) as [[value r0]|] eqn:E; [|done]. simpl.
    apply IHv in E. pose proof (skip_ws_length r0) as Hws.
    destruct (skip_ws r0) as [|c r1]; [done|]. simpl in Hws.
    destruct (c =? 93); [intros [= <- <-]; lia|].
    destruct (c =? 44); [|done].
    destruct (array_items fuel (skip_ws r1)) as [[values r2]|] eqn:E2; [|done].
    intros [= <- <-]. apply IHa in E2. pose proof (skip_ws_length r1). lia.
  - intros s kvs r. cbn [object_items].
    destruct (scanstring s) as [[key r0]|] eqn:E; [|done]. simpl.
    apply scanstring_length in E. pose proof (skip_ws_length r0) as Hws.
    destruct (skip_ws r0) as [|c r1]; [done|]. simpl in Hws.
    destruct (c =? 58); [|done].
    destruct (scan_once fuel (skip_ws r1)) as [[value r2]|] eqn:E2; [|done]. simpl.
    apply IHv in E2. pose proof (skip_ws_length r1). pose proof (skip_ws_length r2) as Hws2.
    destruct (skip_ws r2) as [|c2 r3]; [done|]. simpl in Hws2.
    destruct (c2 =? 125); [intros [= <- <-]; lia|].
    destruct (c2 =? 44); [|done].
    pose proof (skip_ws_length r3) as Hws3.
    destruct (skip_ws r3) as [|c3 r4]; [done|]. simpl in Hws3.
    destruct (c3 =? 34); [|done].
    destruct (object_items fuel r4) as [[pairs r5]|] eqn:E3; [|done].
    intros [= <- <-]. apply IHo in E3. lia.
Qed.

Lemma cons_chr_raise (c : N) (m : result (str * str)) (e : exn) :
  cons_chr c m = Raise e -> m = Raise e.
Proof. by destruct m as [[x' r']|e']. Qed.

Lemma scanstring_raise (s : str) (e : exn) :
  scanstring s = Raise e -> e = JSONDecodeError.
Proof.
  induction s as [s IH] using (induction_ltof1 _ (@length N)). unfold ltof in IH.
  assert (Htail : forall c t, (length t < length s)%nat ->
            cons_chr c (scanstring t) = Raise e -> e = JSONDecodeError).
  { intros c t Ht H%cons_chr_raise. by apply IH in H. }
  destruct s as [|c s1]; [by intros [= <-]|]. simpl in *.
  destruct (c =? 34); [done|].
  destruct (c =? 92); [|destruct (c <? 32); [by intros [= <-]|apply Htail; lia]].
  destruct s1 as [|e' s2]; [by intros [= <-]|]. simpl in *.
  destruct (e' =? 117);
    [|destruct (backslash e'); [apply Htail; lia|by intros [= <-]]].
  destruct s2 as [|h1 [|h2 [|h3 [|h4 s3]]]]; try by intros [= <-]. simpl in *.
  destruct (hex4 h1 h2 h3 h4) as [uni|]; [|by intros [= <-]].
  destruct s3 as [|b [|u [|g1 [|g2 [|g3 [|g4 s4]]]]]];
    try (apply Htail; simpl; lia).
  destruct (_ && _ && _); [|apply Htail; simpl; lia].
  destruct (hex4 g1 g2 g3 g4) as [uni2|]; [|by intros [= <-]].
  destruct (is_low_surrogate uni2); apply Htail; simpl; lia.
Qed.

(** With fuel above twice the length of the text the scanner never runs
    out: the only exception it raises is [JSONDecodeError]. *)
Lemma scan_once_fuel (fuel : nat) :
  (forall s e, (2 * length s < fuel)%nat ->
     scan_once fuel s = Raise e -> e = JSONDecodeError)
  /\ (forall s e, (2 * length s + 1 < fuel)%nat ->
        array_items fuel s = Raise e -> e = JSONDecodeError)
  /\ (forall s e, (2 * length s + 1 < fuel)%nat ->
        object_items fuel s = Raise e -> e = JSONDecodeError).
Proof.
  induction fuel as [|fuel (IHv & IHa & IHo)]; [repeat split; intros; lia|].
  destruct (scan_once_length fuel) as (Lv & La & Lo).
  split; [|split].
  - intros s e Hf. destruct s as [|c s']; [by intros [= <-]|]. cbn [scan_once].
    pose proof (skip_ws_length s') as Hws. simpl in Hf.
    destruct (c =? 34).
    { destruct (scanstring s') as [[x r0]|e'] eqn:E; [done|]. intros [= <-].
      by apply scanstring_raise in E. }
    destruct (c =? 123).
    { destruct (skip_ws s') as [|c1 s1]; [by intros [= <-]|]. simpl in Hws.
      destruct (c1 =? 125); [done|].
      destruct (c1 =? 34); [|by intros [= <-]].
      destruct (object_items fuel s1) as [[pairs r0]|e'] eqn:E; [done|].
      intros [= <-]. apply IHo in E; [done|lia]. }
    destruct (c =? 91).
    { destruct (skip_ws s') as [|c1 s1]; [by intros [= <-]|]. simpl in Hws.
      destruct (c1 =? 93); [done|].
      destruct (array_items fuel (c1 :: s1)) as [[values r0]|e'] eqn:E; [done|].
      intros [= <-]. apply IHa in E; [done|simpl; lia]. }
    repeat (destruct (startswith _ _); [done|]).
    destruct (match_number (c :: s')) as [[v' r']|]; [done|].
    repeat (destruct (startswith _ _); [done|]).
    by intros [= <-].
  - intros s e Hf. cbn [array_items].
    destruct (scan_once fuel s) as [[value r0]|e'] eqn:E;
      [|intros [= <-]; apply IHv in E; [done|lia]].
    simpl. apply Lv in E. pose proof (skip_ws_length r0) as Hws.
    destruct (skip_ws r0) as [|c r1]; [by intros [= <-]|]. simpl in Hws.
    destruct (c =? 93); [done|].
    destruct (c =? 44); [|by intros [= <-]].
    destruct (array_items fuel (skip_ws r1)) as [[values r2]|e'] eqn:E2; [done|].
    intros [= <-]. pose proof (skip_ws_length r1). apply IHa in E2; [done|lia].
  - intros s e Hf. cbn [object_items].
    destruct (scanstring s) as [[key r0]|e'] eqn:E;
      [|intros [= <-]; by apply scanstring_raise in E].
    simpl. apply scanstring_length in E. pose proof (skip_ws_length r0) as Hws.
    destruct (skip_ws r0) as [|c r1]; [by intros [= <-]|]. simpl in Hws.
    destruct (c =? 58); [|by intros [= <-]].
    pose proof (skip_ws_length r1).
    destruct (scan_once fuel (skip_ws r1)) as [[value r2]|e'] eqn:E2;
      [|intros [= <-]; apply IHv in E2; [done|lia]].
    simpl. apply Lv in E2. pose proof (skip_ws_length r2) as Hws2.
    destruct (skip_ws r2) as [|c2 r3]; [by intros [= <-]|]. simpl in Hws2.
    destruct (c2 =? 125); [done|].
    destruct (c2 =? 44); [|by intros [= <-]].
    pose proof (skip_ws_length r3) as Hws3.
    destruct (skip_ws r3) as [|c3 r4]; [by intros [= <-]|]. simpl in Hws3.
    destruct (c3 =? 34); [|by intros [= <-]].
    destruct (object_items fuel r4) as [[pairs r5]|e'] eqn:E3; [done|].
    intros [= <-]. apply IHo in E3; [done|lia].
Qed.

(** [json.loads] raises nothing but [JSONDecodeError]: the scanner never
    runs out of the fuel it is given. *)
Lemma json_loads_raise (s : str) (e : exn) :
  json_loads s = Raise e -> e = JSONDecodeError.
Proof.
  unfold json_loads. destruct (startswith s [65279]); [by intros [= <-]|].
  destruct (scan_once (json_loads_fuel s) (skip_ws s)) as [[obj r]|e'] eqn:E.
  - simpl. destruct (skip_ws r); [done|by intros [= <-]].
  - intros [= <-]. destruct (scan_once_fuel (json_loads_fuel s)) as (H & _ & _).
    apply H in E; [done|]. pose proof (skip_ws_length s). unfold json_loads_fuel. lia.
Qed.

(** Text made of whitespace only, the empty text included, is not JSON. *)
Lemma json_loads_blank (s : str) :
  Forall (fun c => is_ws c = true) s -> json_loads s = Raise JSONDecodeError.
Proof.
  intros Hs. unfold json_loads.
  assert (Hskip : skip_ws s = []).
  { induction Hs as [|c s Hc _ IH]; [done|]. simpl. by rewrite Hc. }
  destruct (startswith s [65279]); [done|]. by rewrite Hskip.
Qed.

Lemma entry_text_printable (directory : str) (arguments : list str) (file : str) :
  Forall printable (json_dumps (entry directory arguments file)).
Proof.
  assert (Hlit : forall s, forallb (fun c => (32 <=? c) && (c <=? 126)) s = true ->
                           Forall printable s) by exact printable_forallb.
  assert (Hargs : Forall printable
                    (join (py ", ") (map json_dumps (PyStr <$> arguments)))).
  { apply join_printable; [apply Hlit; vm_compute; reflexivity|].
    induction arguments; [constructor|]. rewrite fmap_cons.
    constructor; [apply encode_str_printable|done]. }
  unfold entry. cbn [json_dumps map join]. rewrite !Forall_app.
  repeat split;
    first [ apply encode_str_printable | exact Hargs
          | apply Hlit; vm_compute; reflexivity ].
Qed.

Lemma list_text_printable (db : list pyobj) :
  Forall (fun e => Forall printable (json_dumps e)) db ->
  Forall printable (json_dumps (PyList db)).
Proof.
  intros Hdb.
  assert (Hjoin : Forall printable (join (py ", ") (map json_dumps db))).
  { apply join_printable; [apply printable_forallb; vm_compute; reflexivity|].
    induction Hdb; simpl; by constructor. }
  cbn [json_dumps]. rewrite !Forall_app.
  split; [apply printable_forallb; vm_compute; reflexivity|].
  split; [exact Hjoin|apply printable_forallb; vm_compute; reflexivity].
Qed.

(** The text of a database the loop has built is printable ASCII: the file
    holds the same bytes in every encoding that extends ASCII. *)
Lemma database_text_printable (ls : list str) (db : list pyobj) (w w' : world) :
  for_lines ls [] w = (Ok db, w') -> Forall printable (json_dumps (PyList db)).
Proof.
  intros Hrun. destruct (for_lines_ok_inv _ _ _ _ _ Hrun) as (rs & Hrs & ->).
  apply list_text_printable. simpl. clear Hrun.
  induction Hrs as [|l r ls rs Hl _ IH]; [constructor|].
  destruct r as [e|]; simpl; [|exact IH]. constructor; [|exact IH].
  apply line_result_inv in Hl.
  destruct Hl as (it & wd & A & _ & _ & _ & [[_ [=]]|(W & a & _ & _ & [= ->])]).
  apply entry_text_printable.
Qed.


(** *** json.loads reads back what json.dumps wrote *)

Lemma hexval_hex_digit (d : N) : d < 16 -> hexval (hex_digit d) = Some d.
Proof.
  intros Hd. unfold hexval, hex_digit, is_digit.
  destruct (N.ltb_spec d 10).
  - replace ((48 <=? 48 + d) && (48 + d <=? 57)) with true
      by (symmetry; apply andb_true_iff; split; apply N.leb_le; lia).
    f_equal. lia.
  - replace ((48 <=? 87 + d) && (87 + d <=? 57)) with false
      by (symmetry; apply andb_false_iff; right; apply N.leb_gt; lia).
    replace ((97 <=? 87 + d) && (87 + d <=? 102)) with true
      by (symmetry; apply andb_true_iff; split; apply N.leb_le; lia).
    f_equal. lia.
Qed.

Lemma digits4 (n : N) : n < 65536 ->
  ((n / 4096 mod 16 * 16 + n / 256 mod 16) * 16 + n / 16 mod 16) * 16 + n mod 16 = n.
Proof.
  intros Hn.
  change 4096 with (16 * 16 * 16). change 256 with (16 * 16).
  rewrite <- !N.Div0.div_div.
  pose proof (N.div_mod' n 16) as H1.
  pose proof (N.div_mod' (n / 16) 16) as H2.
  pose proof (N.div_mod' (n / 16 / 16) 16) as H3.
  assert (n / 16 / 16 / 16 < 16) as H4.
  { repeat (apply N.Div0.div_lt_upper_bound). lia. }
  rewrite (N.mod_small _ _ H4).
  lia.
Qed.

Lemma lor_high_low (a b k : N) : b < 2 ^ k -> N.lor (a * 2 ^ k) b = a * 2 ^ k + b.
Proof.
  intros Hb.
  assert (Hland : N.land (a * 2 ^ k) b = 0).
  { apply N.bits_inj. intros m. rewrite N.land_spec, N.bits_0.
    destruct (N.lt_ge_cases m k) as [Hm|Hm].
    - rewrite N.mul_pow2_bits_low by exact Hm. reflexivity.
    - rewrite <- (N.mod_small b (2 ^ k)) by exact Hb.
      rewrite N.mod_pow2_bits_high by exact Hm. apply andb_false_r. }
  rewrite N.add_nocarry_lxor by exact Hland. symmetry. apply N.lxor_lor. exact Hland.
Qed.

Lemma surrogates_of (n : N) :
  n < 0x100000 ->
  N.lor 0xd800 (N.land (N.shiftr n 10) 0x3ff) = 0xd800 + n / 1024
  /\ N.lor 0xdc00 (N.land n 0x3ff) = 0xdc00 + n mod 1024
  /\ N.lor (N.shiftl (n / 1024) 10) (n mod 1024) = n.
Proof.
  intros Hn.
  assert (Hq : n / 1024 < 1024) by (apply N.Div0.div_lt_upper_bound; lia).
  assert (Hr : n mod 1024 < 1024) by (apply N.mod_lt; lia).
  change 0x3ff with (N.ones 10). rewrite !N.land_ones, N.shiftr_div_pow2.
  change (2 ^ 10) with 1024. rewrite (N.mod_small _ _ Hq).
  split; [|split].
  - change 0xd800 with (54 * 2 ^ 10). apply lor_high_low. exact Hq.
  - change 0xdc00 with (55 * 2 ^ 10). apply lor_high_low. exact Hr.
  - rewrite N.shiftl_mul_pow2, lor_high_low by exact Hr.
    change (2 ^ 10) with 1024. pose proof (N.div_mod' n 1024). lia.
Qed.

Lemma hex4_digits (n : N) :
  n < 65536 ->
  hex4 (hex_digit (n / 4096 mod 16)) (hex_digit (n / 256 mod 16))
       (hex_digit (n / 16 mod 16)) (hex_digit (n mod 16)) = Some n.
Proof.
  intros Hn. unfold hex4.
  rewrite !hexval_hex_digit by (apply N.mod_lt; lia).
  cbn [mbind option_bind]. f_equal. by apply digits4.
Qed.

(** A [\uXXXX] escape reads back as its code point, unless it is a high
    surrogate with a low one escaped right after it. *)
Lemma scanstring_u_escape (n : N) (t : str) :
  n < 65536 ->
  is_high_surrogate n && low_escape_ahead t = false ->
  scanstring (u_escape n ++ t) = cons_chr n (scanstring t).
Proof.
  intros Hn Hpair. pose proof (hex4_digits n Hn) as Hhex. unfold u_escape.
  revert Hhex.
  generalize (hex_digit (n / 4096 mod 16)) (hex_digit (n / 256 mod 16))
             (hex_digit (n / 16 mod 16)) (hex_digit (n mod 16)).
  intros h1 h2 h3 h4 Hhex. cbn [app].
  change (scanstring (92 :: 117 :: h1 :: h2 :: h3 :: h4 :: t)) with
    (match hex4 h1 h2 h3 h4 with
     | None => Raise JSONDecodeError
     | Some uni =>
         match t with
         | b :: u :: g1 :: g2 :: g3 :: g4 :: s4 =>
             if is_high_surrogate uni && (b =? 92) && (u =? 117) then
               match hex4 g1 g2 g3 g4 with
               | None => Raise JSONDecodeError
               | Some uni2 =>
                   if is_low_surrogate uni2 then
                     cons_chr
                       (0x10000 + N.lor (N.shiftl (uni - 0xd800) 10) (uni2 - 0xdc00))
                       (scanstring s4)
                   else cons_chr uni (scanstring t)
               end
             else cons_chr uni (scanstring t)
         | _ => cons_chr uni (scanstring t)
         end
     end).
  rewrite Hhex.
  destruct t as [|b [|u [|g1 [|g2 [|g3 [|g4 s4]]]]]]; try reflexivity.
  unfold low_escape_ahead in Hpair.
  destruct (is_high_surrogate n); [|reflexivity].
  destruct (b =? 92); [|reflexivity]. destruct (u =? 117); [|reflexivity].
  cbn [andb] in *. destruct (hex4 g1 g2 g3 g4); [|discriminate].
  by rewrite Hpair.
Qed.

Lemma scanstring_plain_char (c : N) (t : str) :
  c <> 34 -> c <> 92 -> 32 <= c -> scanstring (c :: t) = cons_chr c (scanstring t).
Proof.
  intros H34 H92 H32. simpl.
  destruct (N.eqb_spec c 34); [done|]. destruct (N.eqb_spec c 92); [done|].
  destruct (N.ltb_spec c 32); [lia|]. reflexivity.
Qed.

(** Two escapes that [json.dumps] writes for one character above the Basic
    Multilingual Plane read back as that character. *)
Lemma scanstring_surrogate_pair (hi lo : N) (t : str) :
  hi < 65536 -> lo < 65536 ->
  is_high_surrogate hi = true -> is_low_surrogate lo = true ->
  scanstring (u_escape hi ++ u_escape lo ++ t)
  = cons_chr (0x10000 + N.lor (N.shiftl (hi - 0xd800) 10) (lo - 0xdc00))
             (scanstring t).
Proof.
  intros Hhi Hlo Hh Hl.
  pose proof (hex4_digits hi Hhi) as Hhex1. pose proof (hex4_digits lo Hlo) as Hhex2.
  unfold u_escape. revert Hhex1 Hhex2.
  generalize (hex_digit (hi / 4096 mod 16)) (hex_digit (hi / 256 mod 16))
             (hex_digit (hi / 16 mod 16)) (hex_digit (hi mod 16))
             (hex_digit (lo / 4096 mod 16)) (hex_digit (lo / 256 mod 16))
             (hex_digit (lo / 16 mod 16)) (hex_digit (lo mod 16)).
  intros h1 h2 h3 h4 g1 g2 g3 g4 Hhex1 Hhex2. cbn [app].
  change (scanstring (92 :: 117 :: h1 :: h2 :: h3 :: h4
                      :: 92 :: 117 :: g1 :: g2 :: g3 :: g4 :: t)) with
    (match hex4 h1 h2 h3 h4 with
     | None => Raise JSONDecodeError
     | Some uni =>
         if is_high_surrogate uni && true && true then
           match hex4 g1 g2 g3 g4 with
           | None => Raise JSONDecodeError
           | Some uni2 =>
               if is_low_surrogate uni2 then
                 cons_chr
                   (0x10000 + N.lor (N.shiftl (uni - 0xd800) 10) (uni2 - 0xdc00))
                   (scanstring t)
               else cons_chr uni
                      (scanstring (92 :: 117 :: g1 :: g2 :: g3 :: g4 :: t))
           end
         else cons_chr uni (scanstring (92 :: 117 :: g1 :: g2 :: g3 :: g4 :: t))
     end).
  by rewrite Hhex1, Hh, Hhex2, Hl.
Qed.

(** What [json.dumps] writes for one character reads back as that
    character. *)
Lemma scanstring_escape_char (c : N) (t : str) :
  c < 0x110000 ->
  is_high_surrogate c && low_escape_ahead t = false ->
  scanstring (escape_char c ++ t) = cons_chr c (scanstring t).
Proof.
  intros Hc Hpair. unfold escape_char.
  destruct (N.eqb_spec c 92) as [->|H92]; [reflexivity|].
  destruct (N.eqb_spec c 34) as [->|H34]; [reflexivity|].
  destruct (N.eqb_spec c 8) as [->|H8]; [reflexivity|].
  destruct (N.eqb_spec c 12) as [->|H12]; [reflexivity|].
  destruct (N.eqb_spec c 10) as [->|H10]; [reflexivity|].
  destruct (N.eqb_spec c 13) as [->|H13]; [reflexivity|].
  destruct (N.eqb_spec c 9) as [->|H9]; [reflexivity|].
  destruct ((32 <=? c) && (c <=? 126)) eqn:Hp.
  { apply andb_true_iff in Hp as [?%N.leb_le _].
    by apply scanstring_plain_char. }
  destruct (N.ltb_spec c 65536) as [Hbmp|Hbmp]; [by apply scanstring_u_escape|].
  destruct (surrogates_of (c - 65536)) as (Hhi & Hlo & Hjoin); [lia|].
  assert (Hq : (c - 65536) / 1024 < 1024) by (apply N.Div0.div_lt_upper_bound; lia).
  assert (Hr : (c - 65536) mod 1024 < 1024) by (apply N.mod_lt; lia).
  rewrite Hhi, Hlo, <- app_assoc.
  revert Hjoin Hq Hr. clear Hhi Hlo.
  generalize ((c - 65536) / 1024) ((c - 65536) mod 1024). intros q r Hjoin Hq Hr.
  rewrite scanstring_surrogate_pair.
  - do 2 f_equal.
    rewrite (N.add_comm 55296), N.add_sub, (N.add_comm 56320), N.add_sub, Hjoin.
    lia.
  - lia.
  - lia.
  - unfold is_high_surrogate. apply andb_true_iff. split; apply N.leb_le; lia.
  - unfold is_low_surrogate. apply andb_true_iff. split; apply N.leb_le; lia.
Qed.

Lemma low_escape_ahead_quote (rest : str) : low_escape_ahead (34 :: rest) = false.
Proof. by destruct rest as [|u [|g1 [|g2 [|g3 [|g4 s4]]]]]. Qed.

Lemma low_escape_ahead_head (b u : N) (t : str) :
  (b =? 92) && (u =? 117) = false -> low_escape_ahead (b :: u :: t) = false.
Proof.
  intros H. destruct t as [|g1 [|g2 [|g3 [|g4 s4]]]]; try reflexivity.
  unfold low_escape_ahead. by rewrite H.
Qed.

Lemma low_escape_ahead_u_escape (n : N) (t : str) :
  n < 65536 -> is_low_surrogate n = false -> low_escape_ahead (u_escape n ++ t) = false.
Proof.
  intros Hn Hlow. unfold u_escape. cbn [app low_escape_ahead].
  rewrite hex4_digits by exact Hn. by rewrite Hlow.
Qed.

(** What [json.dumps] writes for a character that is not a low surrogate
    is never taken for the second half of a pair. *)
Lemma low_escape_ahead_escape_char (c : N) (t : str) :
  c < 0x110000 -> is_low_surrogate c = false ->
  low_escape_ahead (escape_char c ++ t) = false.
Proof.
  intros Hc Hlow. unfold escape_char.
  destruct (N.eqb_spec c 92) as [->|H92]; [by apply low_escape_ahead_head|].
  repeat (destruct (_ =? _); [by apply low_escape_ahead_head|]).
  destruct ((32 <=? c) && (c <=? 126)) eqn:Hp.
  { apply andb_true_iff in Hp as [_ ?%N.leb_le]. cbn [app].
    destruct t as [|u t]; [done|]. apply low_escape_ahead_head.
    destruct (N.eqb_spec c 92); done. }
  destruct (N.ltb_spec c 65536) as [Hbmp|Hbmp];
    [by apply low_escape_ahead_u_escape|].
  destruct (surrogates_of (c - 65536)) as (Hhi & _ & _); [lia|].
  assert (Hq : (c - 65536) / 1024 < 1024) by (apply N.Div0.div_lt_upper_bound; lia).
  rewrite Hhi, <- app_assoc. clear Hhi. revert Hq.
  generalize ((c - 65536) / 1024). intros q Hq.
  apply low_escape_ahead_u_escape; [lia|].
  unfold is_low_surrogate. apply andb_false_iff. left. apply N.leb_gt. lia.
Qed.

Lemma plain_cons (c : N) (s : str) :
  plain (c :: s) = true ->
  c < 0x110000 /\ plain s = true
  /\ is_high_surrogate c
     && match s with c' :: _ => is_low_surrogate c' | [] => false end = false.
Proof.
  cbn [plain]. intros [[?%N.ltb_lt ?%negb_true_iff]%andb_true_iff ?]%andb_true_iff.
  done.
Qed.

(** The body of a string as [json.dumps] writes it, up to the closing
    quote, reads back as the string. *)
Lemma scanstring_encoded (s rest : str) :
  plain s = true -> scanstring (concat (map escape_char s) ++ 34 :: rest) = Ok (s, rest).
Proof.
  induction s as [|c s IH]; [done|]. intros (Hc & Hs & Hpair)%plain_cons.
  cbn [map concat]. rewrite <- app_assoc, scanstring_escape_char, IH; [done..|].
  destruct (is_high_surrogate c); [|done]. cbn [andb] in *.
  destruct s as [|c' s']; [apply low_escape_ahead_quote|].
  apply plain_cons in Hs as (Hc' & _ & _).
  cbn [map concat]. rewrite <- app_assoc. by apply low_escape_ahead_escape_char.
Qed.

Lemma scan_once_encode_str (fuel : nat) (s rest : str) :
  plain s = true -> scan_once (S fuel) (encode_str s ++ rest) = Ok (PyStr s, rest).
Proof.
  intros Hs. unfold encode_str. rewrite <- !app_assoc. cbn [app scan_once].
  change (34 =? 34) with true. cbv iota.
  by rewrite scanstring_encoded.
Qed.

(** The steps of the scanner on the punctuation [json.dumps] writes. *)
Lemma array_items_close (fuel : nat) (s : str) (v : pyobj) (r : str) :
  scan_once fuel s = Ok (v, 93 :: r) -> array_items (S fuel) s = Ok ([v], r).
Proof. intros H. cbn [array_items]. by rewrite H. Qed.

Lemma array_items_comma (fuel : nat) (s : str) (v : pyobj) (r : str) :
  scan_once fuel s = Ok (v, 44 :: r) ->
  array_items (S fuel) s
  = '(values, r2) ← array_items fuel (skip_ws r); Ok (v :: values, r2).
Proof. intros H. cbn [array_items]. by rewrite H. Qed.

Lemma object_items_close (fuel : nat) (s key r1 : str) (v : pyobj) (r3 : str) :
  scanstring s = Ok (key, 58 :: r1) ->
  scan_once fuel (skip_ws r1) = Ok (v, 125 :: r3) ->
  object_items (S fuel) s = Ok ([(key, v)], r3).
Proof. intros Hk Hv. cbn [object_items]. rewrite Hk. simpl. by rewrite Hv. Qed.

Lemma object_items_comma (fuel : nat) (s key r1 : str) (v : pyobj) (r3 r4 : str) :
  scanstring s = Ok (key, 58 :: r1) ->
  scan_once fuel (skip_ws r1) = Ok (v, 44 :: r3) ->
  skip_ws r3 = 34 :: r4 ->
  object_items (S fuel) s
  = '(pairs, r5) ← object_items fuel r4; Ok ((key, v) :: pairs, r5).
Proof.
  intros Hk Hv Hq. cbn [object_items]. rewrite Hk. simpl. rewrite Hv. simpl.
  by rewrite Hq.
Qed.

Lemma scan_once_object (fuel : nat) (s s1 : str) :
  skip_ws s = 34 :: s1 ->
  scan_once (S fuel) (123 :: s)
  = '(pairs, r) ← object_items fuel s1; Ok (PyDict (dict pairs), r).
Proof. intros H. cbn [scan_once]. by rewrite H. Qed.

Lemma scan_once_array (fuel : nat) (s s1 : str) :
  skip_ws s = 34 :: s1 ->
  scan_once (S fuel) (91 :: s)
  = '(values, r) ← array_items fuel (34 :: s1); Ok (PyList values, r).
Proof. intros H. cbn [scan_once]. by rewrite H. Qed.

Lemma scan_once_empty_array (fuel : nat) (s : str) :
  scan_once (S fuel) (91 :: 93 :: s) = Ok (PyList [], s).
Proof. reflexivity. Qed.

Lemma join_cons_cons (sep x y : str) (l : list str) :
  join sep (x :: y :: l) = x ++ sep ++ join sep (y :: l).
Proof. reflexivity. Qed.

Lemma join_encoded_head (a : str) (A : list str) (t : str) :
  exists tail, join (py ", ") (encode_str <$> a :: A) ++ t = 34 :: tail.
Proof.
  rewrite fmap_cons. destruct A as [|a' A].
  - by eexists.
  - rewrite fmap_cons, join_cons_cons. by eexists.
Qed.

(** The elements of a list as [json.dumps] writes them, up to the closing
    bracket, read back as the list. *)
Lemma array_items_encoded (A : list str) (fuel : nat) (rest : str) :
  A <> [] -> Forall (fun a => plain a = true) A -> (length A < fuel)%nat ->
  array_items fuel (join (py ", ") (encode_str <$> A) ++ 93 :: rest)
  = Ok (PyStr <$> A, rest).
Proof.
  intros HA Hplain. revert fuel.
  induction Hplain as [|a A Ha _ IH]; [done|]. clear HA. intros fuel Hfuel.
  destruct fuel as [|fuel]; [simpl in Hfuel; lia|].
  destruct fuel as [|fuel']; [simpl in Hfuel; lia|].
  destruct A as [|a' A].
  - apply array_items_close. rewrite fmap_cons. cbn [fmap list_fmap join].
    by apply scan_once_encode_str.
  - rewrite (array_items_comma _ _ (PyStr a)
               (32 :: join (py ", ") (encode_str <$> a' :: A) ++ 93 :: rest)).
    + change (skip_ws (32 :: ?x)) with (skip_ws x).
      destruct (join_encoded_head a' A (93 :: rest)) as [tail Htail].
      rewrite Htail. change (skip_ws (34 :: tail)) with (34 :: tail).
      rewrite <- Htail, IH; [reflexivity|done|simpl in *; lia].
    + rewrite !fmap_cons, join_cons_cons, <- !app_assoc.
      by apply scan_once_encode_str.
Qed.

Lemma record_text_cons (W : str) (A : list str) (rest : str) :
  record_text W A ++ rest
  = [123; 34; 119; 100; 34; 58; 32] ++ encode_str W
    ++ [44; 32; 34; 97; 114; 103; 115; 34; 58; 32; 91]
    ++ join (py ", ") (encode_str <$> A) ++ 93 :: 125 :: rest.
Proof. unfold record_text. by rewrite <- !app_assoc. Qed.

(** The text the wrapper writes for a record reads back as the record. *)
Lemma scan_once_record_text (W : str) (A : list str) (fuel : nat) (rest : str) :
  plain W = true -> Forall (fun a => plain a = true) A ->
  (length A + 4 < fuel)%nat ->
  scan_once fuel (record_text W A ++ rest)
  = Ok (PyDict [(py "wd", PyStr W); (py "args", PyList (PyStr <$> A))], rest).
Proof.
  intros HW HA Hfuel.
  destruct fuel as [|[|[|[|fuel]]]]; [lia..|].
  assert (Hargs : scan_once (S fuel)
                    (91 :: join (py ", ") (encode_str <$> A) ++ 93 :: 125 :: rest)
                  = Ok (PyList (PyStr <$> A), 125 :: rest)).
  { destruct A as [|a A]; [reflexivity|].
    destruct (join_encoded_head a A (93 :: 125 :: rest)) as [tail Htail].
    rewrite (scan_once_array _ _ tail) by (by rewrite Htail).
    rewrite <- Htail, array_items_encoded; [reflexivity|done|done|simpl in *; lia]. }
  rewrite record_text_cons. cbn [app].
  rewrite (scan_once_object _ _ (119 :: 100 :: 34 :: 58 :: 32 :: encode_str W
             ++ [44; 32; 34; 97; 114; 103; 115; 34; 58; 32; 91]
             ++ join (py ", ") (encode_str <$> A) ++ 93 :: 125 :: rest))
    by reflexivity.
  rewrite (object_items_comma _ _ (py "wd")
             (32 :: encode_str W
              ++ [44; 32; 34; 97; 114; 103; 115; 34; 58; 32; 91]
              ++ join (py ", ") (encode_str <$> A) ++ 93 :: 125 :: rest)
             (PyStr W)
             ([32; 34; 97; 114; 103; 115; 34; 58; 32; 91]
              ++ join (py ", ") (encode_str <$> A) ++ 93 :: 125 :: rest)
             ([97; 114; 103; 115; 34; 58; 32; 91]
              ++ join (py ", ") (encode_str <$> A) ++ 93 :: 125 :: rest));
    [|reflexivity|by apply scan_once_encode_str|reflexivity].
  rewrite (object_items_close _ _ (py "args")
             (32 :: 91 :: join (py ", ") (encode_str <$> A) ++ 93 :: 125 :: rest)
             (PyList (PyStr <$> A)) rest); [reflexivity|reflexivity|exact Hargs].
Qed.

Lemma join_encoded_length (A : list str) :
  (length A <= length (join (py ", ") (encode_str <$> A)))%nat.
Proof.
  induction A as [|a A IH]; [done|]. rewrite fmap_cons.
  destruct A as [|a' A]; [simpl; lia|].
  rewrite fmap_cons, join_cons_cons, !length_app. rewrite fmap_cons in IH.
  unfold encode_str at 1. rewrite !length_app. simpl in *. lia.
Qed.

(** The line the wrapper appends for a working directory and arguments
    that are [plain] is a record with that directory and those
    arguments. *)
Lemma wrapper_line_is_record (W : str) (A : list str) :
  plain W = true -> Forall (fun a => plain a = true) A ->
  is_record (record_text W A ++ [10]) W A.
Proof.
  intros HW HA.
  exists (PyDict [(py "wd", PyStr W); (py "args", PyList (PyStr <$> A))]).
  split; [|split; reflexivity].
  unfold json_loads.
  assert (Hhead : exists tail, record_text W A ++ [10] = 123 :: tail).
  { rewrite record_text_cons. by eexists. }
  destruct Hhead as [tail Htail].
  replace (startswith (record_text W A ++ [10]) [65279]) with false
    by (by rewrite Htail).
  replace (skip_ws (record_text W A ++ [10])) with (record_text W A ++ [10])
    by (by rewrite Htail).
  rewrite scan_once_record_text; [reflexivity|done|done|].
  unfold json_loads_fuel. rewrite record_text_cons, !length_app.
  pose proof (join_encoded_length A). simpl. lia.
Qed.

(** *** The wrapper *)

Lemma cc_run (argv : list str) (environ : gmap str str) (cwd : str) (w : world) :
  cc argv environ cwd w
  = (Ok (), wrapped (default (py "cc_hook.txt")
                             (environ !! py "CC_HOOK_COMPDB_LOG_FILE"))
                    (record_text cwd (drop 1 argv)) (drop 1 argv) environ w).
Proof.
  unfold cc. rewrite json_dumps_record.
  replace (match environ !! py "CC_HOOK_COMPDB_LOG_FILE" with
           | Some path => path
           | None => py "cc_hook.txt"
           end)
    with (default (py "cc_hook.txt") (environ !! py "CC_HOOK_COMPDB_LOG_FILE"))
    by (by destruct (environ !! _)).
  generalize (default (py "cc_hook.txt") (environ !! py "CC_HOOK_COMPDB_LOG_FILE"))
             (record_text cwd (drop 1 argv)).
  intros log_file record.
  unfold mbind, M_bind, open_append, write, close, execve, wrapped, emit,
    set_file, file_text.
  cbn [fs stdout trace]. rewrite !lookup_insert_eq. cbn [default]. unfold id.
  rewrite !insert_insert_eq, <- !app_assoc. done.
Qed.

Lemma universal_newlines_id (s : str) : 13 ∉ s -> universal_newlines s = s.
Proof.
  induction s as [|c s IH]; [done|]. intros [Hc Hs]%not_elem_of_cons. simpl.
  destruct (N.eqb_spec c 13); [done|]. by rewrite IH.
Qed.

Lemma readlines_record_line (W : str) (A : list str) :
  readlines (record_text W A ++ [10]) = [record_text W A ++ [10]].
Proof.
  pose proof (record_text_printable W A) as Hp. unfold readlines.
  rewrite universal_newlines_id.
  - apply (splitlines_newline (record_text W A) []). by apply printable_no_newline.
  - intros [Hin|Hin%list_elem_of_singleton]%elem_of_app; [|done].
    rewrite Forall_forall in Hp. apply Hp in Hin. unfold printable in Hin. lia.
Qed.

(** * The claims *)

(** C4: an argument is recognized exactly when it ends in [.c], [.cc] or
    [.cpp]; the match is on the exact code points, so [foo.cpp] is
    recognized while [foo.cpp.bak], [foo.cxx] and the upper-case [foo.CPP]
    are not. *)
Theorem recognition_is_exact_suffix_match :
  (forall a : str,
     is_src a = true <->
     (exists p, a = p ++ py ".c") \/ (exists p, a = p ++ py ".cc") \/
     (exists p, a = p ++ py ".cpp"))
  /\ is_src (py "foo.cpp") = true
  /\ is_src (py "foo.cpp.bak") = false
  /\ is_src (py "foo.cxx") = false
  /\ is_src (py "foo.CPP") = false.
Proof.
  split; [exact is_src_spec|]. repeat split; vm_compute; reflexivity.
Qed.

(** C1: when every line of the log is a record with a recognized argument,
    the generator builds exactly one entry per line, in order: [directory]
    is the record's [wd], [arguments] is its [args] after [/usr/bin/gcc],
    and [file] is [os.path.join] of [wd] and the last recognized element
    of that full vector.  Nothing is printed, and the JSON text of that
    list is what the database file holds afterwards. *)
Theorem gen_compdb_entries (argv : list str) (log_file text : str) (w : world)
    (recs : list (str * list str * str)) :
  argv !! 1%nat = Some log_file ->
  fs w !! log_file = Some text ->
  Forall2 (fun l '(wd, args, a) => is_record l wd args /\ last_src (gcc :: args) a)
          (readlines text) recs ->
  let db := (fun '(wd, args, a) => entry wd (gcc :: args) (os_path_join wd a))
              <$> recs in
  length db = length (readlines text)
  /\ (forall w', for_lines (readlines text) [] w' = (Ok db, w'))
  /\ gen_compdb argv w = (Ok (), written log_file (json_dumps (PyList db)) [] w).
Proof.
  intros Hargv Hfs Hrecs db.
  assert (Hrs : Forall2 (fun l r => line_result l = Ok r) (readlines text)
                        (Some <$> db)).
  { subst db. induction Hrecs as [|l [[wd args] a] ls recs [Hrec Hlast] _ IH];
      [constructor|].
    rewrite !fmap_cons. constructor; [|exact IH]. by apply line_result_entry. }
  assert (Hlen : length db = length (readlines text)).
  { subst db. rewrite length_fmap. symmetry. by eapply Forall2_length. }
  clearbody db.
  assert (Hloop : forall w', for_lines (readlines text) [] w' = (Ok db, w')).
  { intros w'. destruct (for_lines_ok _ _ [] w' Hrs) as (out & -> & Hout).
    rewrite Hout by apply Forall_is_Some_fmap.
    by rewrite add_stdout_nil, omap_id_Some. }
  split; [exact Hlen|split; [exact Hloop|]].
  apply (gen_compdb_run argv log_file text (Ok db) [] w Hargv Hfs).
  intros w'. by rewrite Hloop, add_stdout_nil.
Qed.

(** C2: a log with a malformed line (text that is not JSON, or a value that
    cannot be indexed by ["wd"] or by ["args"]) makes the run end in an
    exception.  No file has changed then and the database file was never
    opened: the only system call of the run is the opening of the log. *)
Theorem malformed_line_aborts (argv : list str) (log_file text : str) (w : world)
    (l : str) :
  argv !! 1%nat = Some log_file ->
  fs w !! log_file = Some text ->
  l ∈ readlines text ->
  malformed l ->
  exists e out, gen_compdb argv w = (Raise e, aborted log_file out w).
Proof.
  intros Hargv Hfs Hin Hbad.
  destruct (for_lines_pure (readlines text) []) as (r & out & Hloop).
  pose proof (for_lines_raises _ [] w l Hin (line_result_malformed l Hbad)) as Hr.
  rewrite Hloop in Hr. destruct r as [db|e]; [done|].
  exists e, out. exact (gen_compdb_run argv log_file text (Raise e) out w Hargv Hfs Hloop).
Qed.

(** C9: when the last recognized argument starts with [/], the join drops
    the working directory and the entry's [file] is that argument as it
    stands. *)
Theorem absolute_source_drops_wd (l wd : str) (args : list str) (a : str)
    (db : list pyobj) (w : world) :
  is_record l wd args ->
  last_src (gcc :: args) a ->
  startswith a (py "/") = true ->
  loop_body l db w = (Ok (db ++ [entry wd (gcc :: args) a]), w).
Proof.
  intros Hrec Hlast Habs.
  rewrite loop_body_line_result, (line_result_entry l wd args a Hrec Hlast).
  by rewrite os_path_join_absolute.
Qed.

(** C10: on a log with no line at all the generator ends normally, prints
    nothing, and writes the two characters [[]] to the database file. *)
Theorem empty_log_writes_empty_array (argv : list str) (log_file : str) (w : world) :
  argv !! 1%nat = Some log_file ->
  fs w !! log_file = Some [] ->
  gen_compdb argv w = (Ok (), written log_file (py "[]") [] w).
Proof.
  intros Hargv Hfs.
  apply (gen_compdb_run argv log_file [] (Ok []) [] w Hargv Hfs).
  intros w'. simpl. by rewrite add_stdout_nil.
Qed.

(** C7: after a run that ends normally the database file holds the JSON
    text of a list [db] in which every entry's [file] ends in a recognized
    extension, and [db] is, in order, one entry for each line with a
    recognized argument and none for the others. *)
Theorem db_entries_invariant (argv : list str) (log_file text : str) (w w' : world) :
  argv !! 1%nat = Some log_file ->
  fs w !! log_file = Some text ->
  gen_compdb argv w = (Ok (), w') ->
  exists (rs : list (option pyobj)) (db : list pyobj),
    Forall2 contributes (readlines text) rs
    /\ db = omap id rs
    /\ fs w' !! dst = Some (json_dumps (PyList db))
    /\ Forall (fun e => exists directory arguments file,
                 e = entry directory arguments file /\ is_src file = true) db.
Proof.
  intros Hargv Hfs Hrun.
  destruct (for_lines_pure (readlines text) []) as (r & out & Hloop).
  rewrite (gen_compdb_run argv log_file text r out w Hargv Hfs Hloop) in Hrun.
  destruct r as [db|e]; [|done]. injection Hrun as <-.
  destruct (for_lines_ok_inv _ _ _ _ _ (Hloop w)) as (rs & Hrs & Hdb).
  simpl in Hdb. assert (Hc : Forall2 contributes (readlines text) rs).
  { eapply Forall2_impl; [exact Hrs|]. intros l r. apply line_result_inv. }
  exists rs, db. split; [exact Hc|]. split; [exact Hdb|].
  split; [unfold written; cbn [fs]; apply lookup_insert_eq|].
  subst db. clear -Hc. induction Hc as [|l r ls rs Hl _ IH]; [constructor|].
  destruct r as [e|]; simpl; [|exact IH]. constructor; [|exact IH].
  destruct Hl as (it & wd & A & _ & _ & _ & [[_ [=]]|(W & a & _ & Ha & [= ->])]).
  exists W, (gcc :: A), (os_path_join W a). split; [done|].
  destruct Ha as (pre & post & _ & Ha & _). by apply is_src_os_path_join.
Qed.

(** C8: what the generator does is a function of the text of the log.  Two
    runs on worlds whose logs hold the same text end the same way and, when
    they end normally, leave the same text in the database file, all of it
    printable ASCII (so the same bytes); and a second run on the world the
    first one left, with the log unchanged, leaves every file as the first
    run left it. *)
Theorem generation_is_deterministic (argv : list str) (log_file text : str)
    (w w' : world) :
  argv !! 1%nat = Some log_file ->
  fs w !! log_file = Some text ->
  fs w' !! log_file = Some text ->
  (gen_compdb argv w).1 = (gen_compdb argv w').1
  /\ ((gen_compdb argv w).1 = Ok () ->
      exists data, fs (gen_compdb argv w).2 !! dst = Some data
                   /\ fs (gen_compdb argv w').2 !! dst = Some data
                   /\ Forall printable data)
  /\ (w' = (gen_compdb argv w).2 -> fs (gen_compdb argv w').2 = fs w').
Proof.
  intros Hargv Hfs Hfs'.
  destruct (for_lines_pure (readlines text) []) as (r & out & Hloop).
  rewrite (gen_compdb_run argv log_file text r out w Hargv Hfs Hloop).
  rewrite (gen_compdb_run argv log_file text r out w' Hargv Hfs' Hloop).
  destruct r as [db|e]; cbn [fst snd written aborted fs].
  - split; [done|]. split.
    + intros _. exists (json_dumps (PyList db)). rewrite !lookup_insert_eq.
      split; [done|]. split; [done|]. exact (database_text_printable _ _ _ _ (Hloop w)).
    + intros ->. cbn [fs]. apply insert_insert_eq.
  - done.
Qed.

(** C3: a line whose full argument vector has no recognized element adds
    no entry and does not stop the run: the loop goes on with the database
    as it was.  [print] adds to standard output the text
    [warning no src ] followed by the line as it was read and a newline;
    that text holds exactly one warning line, followed by an empty line
    when the line read ended in a newline of its own. *)
Theorem no_source_line_warns (text l : str) (it wd : pyobj) (A : list str) :
  l ∈ readlines text ->
  json_loads l = Ok it ->
  getitem it (py "wd") = Ok wd ->
  getitem it (py "args") = Ok (PyList (PyStr <$> A)) ->
  no_src (gcc :: A) ->
  let out := py "warning no src " ++ l ++ [10] in
  (forall db w, loop_body l db w = (Ok db, add_stdout out w))
  /\ (forall ls db w, for_lines (l :: ls) db w = for_lines ls db (add_stdout out w))
  /\ (splitlines out = [out] \/ splitlines out = [py "warning no src " ++ l; [10]])
  /\ exists ln, warning_lines out = [ln].
Proof.
  intros Hin Hit Hwd Hargs Hno out.
  assert (Hbody : forall db w, loop_body l db w = (Ok db, add_stdout out w)).
  { intros db w.
    by rewrite loop_body_line_result, (line_result_warning l it wd A Hit Hwd Hargs Hno). }
  split; [exact Hbody|]. split.
  { intros ls db w. cbn [for_lines]. unfold mbind, M_bind. by rewrite Hbody. }
  assert (Hsplit : splitlines out = [out]
                   \/ splitlines out = [py "warning no src " ++ l; [10]]).
  { subst out. destruct (splitlines_line _ _ Hin) as [(body & -> & Hb)|Hl].
    - right.
      replace (py "warning no src " ++ (body ++ [10]) ++ [10])
        with ((py "warning no src " ++ body) ++ 10 :: [10])
        by (by rewrite <- !app_assoc).
      rewrite splitlines_newline.
      + by rewrite <- app_assoc.
      + apply not_elem_of_app. split; [apply warning_prefix_no_newline|done].
    - left.
      replace (py "warning no src " ++ l ++ [10])
        with ((py "warning no src " ++ l) ++ 10 :: []) at 1
        by (by rewrite <- !app_assoc).
      rewrite splitlines_newline.
      + by rewrite <- app_assoc.
      + apply not_elem_of_app. split; [apply warning_prefix_no_newline|done]. }
  split; [exact Hsplit|].
  assert (Hstart : forall s, startswith (py "warning no src " ++ s)
                                        (py "warning no src ") = true).
  { intros s. apply startswith_spec. by exists s. }
  unfold warning_lines. destruct Hsplit as [->| ->]; cbn [List.filter].
  - subst out. rewrite Hstart. by eexists.
  - rewrite Hstart. by eexists.
Qed.

(** C5: one run of the wrapper with the arguments [args] in the directory
    [cwd] opens the log for appending, writes the text of the object
    [{"wd": cwd, "args": args}] (keys in that order) and then a newline,
    closes the log, and only then calls [execve]; the text written holds
    no newline of its own, so the log has grown by exactly one line; and
    for a directory and arguments that are [plain] that line is JSON for
    the object whose ["wd"] is [cwd] and whose ["args"] is [args]. *)
Theorem wrapper_appends_one_record_line (argv : list str) (environ : gmap str str)
    (cwd : str) (w : world) :
  let log_file := default (py "cc_hook.txt")
                          (environ !! py "CC_HOOK_COMPDB_LOG_FILE") in
  let args := drop 1 argv in
  let record := record_text cwd args in
  cc argv environ cwd w = (Ok (), wrapped log_file record args environ w)
  /\ (10 ∉ record)
  /\ splitlines (record ++ [10]) = [record ++ [10]]
  /\ (plain cwd = true -> Forall (fun a => plain a = true) args ->
      is_record (record ++ [10]) cwd args).
Proof.
  intros log_file args record.
  assert (Hnl : 10 ∉ record).
  { apply printable_no_newline, record_text_printable. }
  split; [apply cc_run|]. split; [exact Hnl|]. split.
  - by rewrite (splitlines_newline record []).
  - apply wrapper_line_is_record.
Qed.

(** C6 (as amended): every line of the log, blank or not, is parsed on its
    own as one JSON text.  A line of whitespace only is not JSON: it
    raises [JSONDecodeError] and a log that has one is aborted with no
    file changed, like any malformed line.  What a line contributes is a
    function of that line alone ([line_result]): an entry added to the
    database, a warning printed, or an exception; and when no line raises,
    the database is the entries of the lines, in order. *)
Theorem every_line_is_parsed_alone :
  (forall l, Forall (fun c => is_ws c = true) l ->
     json_loads l = Raise JSONDecodeError)
  /\ (forall argv log_file text w l,
        argv !! 1%nat = Some log_file ->
        fs w !! log_file = Some text ->
        l ∈ readlines text ->
        Forall (fun c => is_ws c = true) l ->
        exists e out, gen_compdb argv w = (Raise e, aborted log_file out w))
  /\ (forall l db w,
        loop_body l db w =
        match line_result l with
        | Ok (Some e) => (Ok (db ++ [e]), w)
        | Ok None => (Ok db, add_stdout (py "warning no src " ++ l ++ [10]) w)
        | Raise e => (Raise e, w)
        end)
  /\ (forall ls rs db w,
        Forall2 (fun l r => line_result l = Ok r) ls rs ->
        exists out, for_lines ls db w = (Ok (db ++ omap id rs), add_stdout out w)).
Proof.
  split; [exact json_loads_blank|]. split; [|split].
  - intros argv log_file text w l Hargv Hfs Hin Hblank.
    destruct (for_lines_pure (readlines text) []) as (r & out & Hloop).
    assert (Hbad : malformed l).
    { unfold malformed. by rewrite json_loads_blank. }
    pose proof (for_lines_raises _ [] w l Hin (line_result_malformed l Hbad)) as Hr.
    rewrite Hloop in Hr. destruct r as [db|e]; [done|]. exists e, out.
    exact (gen_compdb_run argv log_file text (Raise e) out w Hargv Hfs Hloop).
  - exact loop_body_line_result.
  - intros ls rs db w Hrs. destruct (for_lines_ok ls rs db w Hrs) as (out & H & _).
    by exists out.
Qed.

(** X1: the two scripts fit together.  After one run of the wrapper on a
    log that was missing or empty, with a [plain] directory and arguments of
    which [a] is the last recognized one, the generator run on that log
    ends normally, prints nothing, and writes the database of the one entry
    for that invocation. *)
Theorem wrapper_then_generator (argv gen_argv : list str) (environ : gmap str str)
    (cwd a : str) (w : world) :
  let log_file := default (py "cc_hook.txt")
                          (environ !! py "CC_HOOK_COMPDB_LOG_FILE") in
  let args := drop 1 argv in
  let w1 := (cc argv environ cwd w).2 in
  plain cwd = true ->
  Forall (fun x => plain x = true) args ->
  last_src (gcc :: args) a ->
  file_text log_file w = [] ->
  gen_argv !! 1%nat = Some log_file ->
  gen_compdb gen_argv w1
  = (Ok (),
     written log_file
       (json_dumps (PyList [entry cwd (gcc :: args) (os_path_join cwd a)])) [] w1).
Proof.
  intros log_file args w1 Hcwd Hargs Hlast Hlog Hargv.
  apply (gen_compdb_run gen_argv log_file (record_text cwd args ++ [10])
           (Ok [entry cwd (gcc :: args) (os_path_join cwd a)]) [] w1 Hargv).
  - subst w1. rewrite cc_run. unfold wrapped. cbn [snd fs].
    fold log_file. fold args. by rewrite lookup_insert_eq, Hlog.
  - intros w'. rewrite readlines_record_line. cbn [for_lines].
    unfold mbind, M_bind. rewrite loop_body_line_result.
    rewrite (line_result_entry _ cwd args a (wrapper_line_is_record _ _ Hcwd Hargs) Hlast).
    by rewrite add_stdout_nil.
Qed.

(** * Further properties of the two scripts *)

Lemma contributes_line_result (l : str) (r : option pyobj) :
  contributes l r -> line_result l = Ok r.
Proof.
  intros (it & wd & A & Hit & Hwd & Hargs & [[Hno ->]|(W & a & -> & Ha & ->)]).
  - by eapply line_result_warning.
  - apply line_result_entry; [|done]. by exists it.
Qed.

Lemma for_lines_exact (ls : list str) (rs : list (option pyobj)) (db : list pyobj)
    (w : world) :
  Forall2 (fun l r => line_result l = Ok r) ls rs ->
  for_lines ls db w = (Ok (db ++ omap id rs), add_stdout (warnings_of ls rs) w).
Proof.
  intros H. revert db w. induction H as [|l r ls rs Hl _ IH]; intros db w.
  - simpl. by rewrite add_stdout_nil, app_nil_r.
  - cbn [for_lines warnings_of]. unfold mbind, M_bind.
    rewrite loop_body_line_result, Hl. destruct r as [e|].
    + rewrite IH. cbn [omap list_omap id app]. by rewrite <- app_assoc.
    + rewrite IH, add_stdout_add_stdout. unfold warning.
      by rewrite <- !app_assoc.
Qed.

Lemma for_lines_first_fault (ls1 ls2 : list str) (l : str) (rs : list (option pyobj))
    (e : exn) (db : list pyobj) (w : world) :
  Forall2 (fun l r => line_result l = Ok r) ls1 rs ->
  line_result l = Raise e ->
  for_lines (ls1 ++ l :: ls2) db w = (Raise e, add_stdout (warnings_of ls1 rs) w).
Proof.
  intros H He. revert db w. induction H as [|l1 r ls1 rs Hl _ IH]; intros db w.
  - cbn [app for_lines warnings_of]. unfold mbind, M_bind.
    by rewrite loop_body_line_result, He, add_stdout_nil.
  - cbn [app for_lines warnings_of]. unfold mbind, M_bind.
    rewrite loop_body_line_result, Hl. destruct r as [e1|].
    + by rewrite IH.
    + rewrite IH, add_stdout_add_stdout. unfold warning. by rewrite <- !app_assoc.
Qed.

Lemma gen_compdb_no_argument (argv : list str) (w : world) :
  argv !! 1%nat = None -> gen_compdb argv w = (Raise IndexError, w).
Proof. intros H. unfold gen_compdb, argv_at. by rewrite H. Qed.

Lemma gen_compdb_no_log (argv : list str) (log_file : str) (w : world) :
  argv !! 1%nat = Some log_file -> fs w !! log_file = None ->
  gen_compdb argv w = (Raise FileNotFoundError, w).
Proof.
  intros Hargv Hfs. unfold gen_compdb, argv_at. rewrite Hargv. msimpl.
  unfold open_read. by rewrite Hfs.
Qed.

(** X2: the generator started without a log argument raises [IndexError],
    and started on a log that does not exist raises [FileNotFoundError]; in
    both cases nothing has happened: no file is touched (a database file
    from an earlier run stays as it is), nothing is printed, no system call
    is recorded. *)
Theorem startup_faults_touch_nothing (argv : list str) (w : world) :
  ((length argv <= 1)%nat -> gen_compdb argv w = (Raise IndexError, w))
  /\ (forall log_file,
        argv !! 1%nat = Some log_file -> fs w !! log_file = None ->
        gen_compdb argv w = (Raise FileNotFoundError, w)).
Proof.
  split.
  - intros Hlen. apply gen_compdb_no_argument. by apply lookup_ge_None.
  - intros log_file. apply gen_compdb_no_log.
Qed.

(** X3: the first line that raises decides the run.  When the lines before
    it all contribute, the run ends in the exception of that line; the
    warnings of the lines before it have been printed, the lines after it
    are never looked at, and no file has changed. *)
Theorem first_fault_decides (argv : list str) (log_file text : str) (w : world)
    (ls1 ls2 : list str) (l : str) (rs : list (option pyobj)) (e : exn) :
  argv !! 1%nat = Some log_file ->
  fs w !! log_file = Some text ->
  readlines text = ls1 ++ l :: ls2 ->
  Forall2 contributes ls1 rs ->
  line_result l = Raise e ->
  gen_compdb argv w = (Raise e, aborted log_file (warnings_of ls1 rs) w).
Proof.
  intros Hargv Hfs Hls Hrs He.
  apply (gen_compdb_run argv log_file text (Raise e) (warnings_of ls1 rs) w Hargv Hfs).
  intros w'. rewrite Hls. apply for_lines_first_fault; [|done].
  eapply Forall2_impl; [exact Hrs|]. apply contributes_line_result.
Qed.

(** X4: a run on a log whose lines all contribute, with or without an
    entry, ends normally.  The database written is the entries of the
    lines, in order; standard output receives exactly the warnings of the
    lines without an entry, in order; the database file is replaced, not
    appended to, and no other file changes. *)
Theorem mixed_log_run (argv : list str) (log_file text : str) (w : world)
    (rs : list (option pyobj)) :
  argv !! 1%nat = Some log_file ->
  fs w !! log_file = Some text ->
  Forall2 contributes (readlines text) rs ->
  gen_compdb argv w
  = (Ok (), written log_file (json_dumps (PyList (omap id rs)))
                    (warnings_of (readlines text) rs) w).
Proof.
  intros Hargv Hfs Hrs.
  apply (gen_compdb_run argv log_file text (Ok (omap id rs))
           (warnings_of (readlines text) rs) w Hargv Hfs).
  intros w'. rewrite (for_lines_exact _ rs [] w'); [done|].
  eapply Forall2_impl; [exact Hrs|]. apply contributes_line_result.
Qed.

(** X5: a working directory that is not a string is fatal only when it is
    used.  For a line whose ["args"] is a list of strings and whose ["wd"]
    is not a string, the loop warns and goes on when no argument is
    recognized, and raises [TypeError] (from [os.path.join]) when one is. *)
Theorem non_string_wd (l : str) (it wd : pyobj) (A : list str) (db : list pyobj)
    (w : world) :
  json_loads l = Ok it ->
  getitem it (py "wd") = Ok wd ->
  getitem it (py "args") = Ok (PyList (PyStr <$> A)) ->
  (forall W, wd <> PyStr W) ->
  (no_src (gcc :: A) ->
     loop_body l db w = (Ok db, add_stdout (py "warning no src " ++ l ++ [10]) w))
  /\ (forall a, last_src (gcc :: A) a -> loop_body l db w = (Raise TypeError, w)).
Proof.
  intros Hit Hwd Hargs Hnot. split.
  - intros Hno.
    by rewrite loop_body_line_result, (line_result_warning l it wd A Hit Hwd Hargs Hno).
  - intros a (pre & post & Hv & Ha & Hpost). rewrite loop_body_line_result.
    unfold line_result. rewrite Hit. rsimpl. rewrite Hwd. rsimpl. rewrite Hargs. rsimpl.
    change (PyStr gcc :: (PyStr <$> A)) with (PyStr <$> (gcc :: A)). rewrite Hv.
    assert (Hscan : forall srcs, scan_args wd (PyStr <$> pre ++ a :: post) srcs
                                 = Raise TypeError).
    { clear -Ha Hnot. induction pre as [|x pre IH]; intros srcs; simpl.
      - rewrite Ha. destruct wd as [| | | |W| |]; try done. by destruct (Hnot W).
      - destruct (is_src x); [|apply IH]. destruct wd as [| | | |W| |]; try done.
        all: by destruct (Hnot W). }
    by rewrite Hscan.
Qed.

(** X6: the faults of a line that is JSON but not a record, in the order
    the loop body meets them: a value that is not an object raises
    [TypeError] at [it['wd']]; an object without ["wd"], or with ["wd"] but
    without ["args"], raises [KeyError]; an ["args"] that is not a list
    raises [TypeError] at the concatenation; and, with ["wd"] a string, an
    element of ["args"] that is not a string raises [AttributeError] once
    the strings before it have been scanned. *)
Theorem record_shape_faults (l : str) (it : pyobj) (db : list pyobj) (w : world) :
  json_loads l = Ok it ->
  ((forall d, it <> PyDict d) -> loop_body l db w = (Raise TypeError, w))
  /\ (forall d, it = PyDict d -> dict_get d (py "wd") = None ->
        loop_body l db w = (Raise KeyError, w))
  /\ (forall d wd, it = PyDict d -> dict_get d (py "wd") = Some wd ->
        dict_get d (py "args") = None ->
        loop_body l db w = (Raise KeyError, w))
  /\ (forall d wd logged, it = PyDict d -> dict_get d (py "wd") = Some wd ->
        dict_get d (py "args") = Some logged ->
        (forall items, logged <> PyList items) ->
        loop_body l db w = (Raise TypeError, w))
  /\ (forall d W A x rest, it = PyDict d ->
        dict_get d (py "wd") = Some (PyStr W) ->
        dict_get d (py "args") = Some (PyList ((PyStr <$> A) ++ x :: rest)) ->
        (forall s, x <> PyStr s) ->
        loop_body l db w = (Raise AttributeError, w)).
Proof.
  intros Hit. rewrite loop_body_line_result. unfold line_result. rewrite Hit. rsimpl.
  split; [|split; [|split; [|split]]].
  - intros Hnot. destruct it as [| | | | | |d]; try done. by destruct (Hnot d).
  - intros d -> Hwd. cbn [getitem]. by rewrite Hwd.
  - intros d wd -> Hwd Hargs. cbn [getitem]. rewrite Hwd. rsimpl. by rewrite Hargs.
  - intros d wd logged -> Hwd Hargs Hnot. cbn [getitem]. rewrite Hwd. rsimpl.
    rewrite Hargs. rsimpl.
    destruct logged as [| | | | |items|]; try done. by destruct (Hnot items).
  - intros d W A x rest -> Hwd Hargs Hnot. cbn [getitem]. rewrite Hwd. rsimpl.
    rewrite Hargs. rsimpl.
    assert (Hscan : forall V srcs,
              scan_args (PyStr W) ((PyStr <$> V) ++ x :: rest) srcs
              = Raise AttributeError).
    { clear -Hnot. induction V as [|v V IH]; intros srcs; simpl.
      - destruct x as [| | | |s| |]; try done. by destruct (Hnot s).
      - destruct (is_src v); apply IH. }
    change (PyStr gcc :: (PyStr <$> A) ++ x :: rest)
      with ((PyStr <$> gcc :: A) ++ x :: rest).
    by rewrite Hscan.
Qed.


Lemma startswith_app (s t prefix : str) :
  startswith s prefix = true -> startswith (s ++ t) prefix = true.
Proof.
  rewrite !startswith_spec. intros [u ->]. exists (u ++ t). by rewrite app_assoc.
Qed.

Lemma os_path_join_absolute_wd (a b : str) :
  startswith a (py "/") = true -> startswith (os_path_join a b) (py "/") = true.
Proof.
  intros Ha. unfold os_path_join. destruct (startswith b (py "/")) eqn:Hb; [done|].
  destruct (_ || _); by apply startswith_app.
Qed.

(** X8: records with an absolute working directory give entries with an
    absolute [file].  After a loop that ends normally on lines whose ["wd"]
    all start with [/], every entry's [file] starts with [/]. *)
Theorem absolute_wd_gives_absolute_file (ls : list str) (db : list pyobj)
    (w w' : world) :
  for_lines ls [] w = (Ok db, w') ->
  Forall (fun l => forall it W, json_loads l = Ok it ->
                     getitem it (py "wd") = Ok (PyStr W) ->
                     startswith W (py "/") = true) ls ->
  Forall (fun e => exists directory arguments file,
            e = entry directory arguments file
            /\ startswith file (py "/") = true) db.
Proof.
  intros Hrun Habs. destruct (for_lines_ok_inv _ _ _ _ _ Hrun) as (rs & Hrs & ->).
  simpl. clear Hrun. induction Hrs as [|l r ls rs Hl _ IH]; [constructor|].
  apply Forall_cons in Habs as [Hl_abs Habs].
  destruct r as [e|]; simpl; [|by apply IH]. constructor; [|by apply IH].
  apply line_result_inv in Hl.
  destruct Hl as (it & wd & A & Hit & Hwd & _ & [[_ [=]]|(W & a & -> & _ & [= ->])]).
  exists W, (gcc :: A), (os_path_join W a). split; [done|].
  apply os_path_join_absolute_wd. by eapply Hl_abs.
Qed.

(** *** Several runs of the wrapper, then the generator *)














(** *** More fuel changes nothing *)

Lemma bind_fuel {A B} (m m' : result A) (k k' : A -> result B) :
  (m <> Raise RecursionError -> m' = m) ->
  (forall a, m = Ok a -> k a <> Raise RecursionError -> k' a = k a) ->
  m ≫= k <> Raise RecursionError ->
  m' ≫= k' = m ≫= k.
Proof.
  intros Hm Hk H. destruct m as [a|e].
  - rewrite Hm by done. cbn [mbind result_bind] in *. by apply Hk.
  - cbn [mbind result_bind] in *. rewrite Hm; [done|].
    intros [= ->]. by apply H.
Qed.

(** A scan that did not run out of fuel gives the same result with any
    larger amount of fuel. *)
Lemma scan_once_more_fuel (fuel : nat) :
  (forall s fuel', (fuel <= fuel')%nat ->
     scan_once fuel s <> Raise RecursionError ->
     scan_once fuel' s = scan_once fuel s)
  /\ (forall s fuel', (fuel <= fuel')%nat ->
        array_items fuel s <> Raise RecursionError ->
        array_items fuel' s = array_items fuel s)
  /\ (forall s fuel', (fuel <= fuel')%nat ->
        object_items fuel s <> Raise RecursionError ->
        object_items fuel' s = object_items fuel s).
Proof.
  induction fuel as [|fuel (IHv & IHa & IHo)]; [by repeat split|].
  split; [|split]; intros s fuel' Hle;
    (destruct fuel' as [|fuel']; [lia|]); assert (fuel <= fuel')%nat by lia.
  - destruct s as [|c s']; [done|]. cbn [scan_once].
    destruct (c =? 34); [done|].
    destruct (c =? 123).
    { destruct (skip_ws s') as [|c1 s1]; [done|].
      destruct (c1 =? 125); [done|]. destruct (c1 =? 34); [|done].
      apply bind_fuel; [by apply IHo|done]. }
    destruct (c =? 91); [|done].
    destruct (skip_ws s') as [|c1 s1]; [done|].
    destruct (c1 =? 93); [done|]. apply bind_fuel; [by apply IHa|done].
  - cbn [array_items]. apply bind_fuel; [by apply IHv|].
    intros [value r] _. destruct (skip_ws r) as [|c r1]; [done|].
    destruct (c =? 93); [done|]. destruct (c =? 44); [|done].
    apply bind_fuel; [by apply IHa|done].
  - cbn [object_items]. destruct (scanstring s) as [[key r]|e]; [|done].
    cbn [mbind result_bind]. destruct (skip_ws r) as [|c r1]; [done|].
    destruct (c =? 58); [|done]. apply bind_fuel; [by apply IHv|].
    intros [value r2] _. destruct (skip_ws r2) as [|c2 r3]; [done|].
    destruct (c2 =? 125); [done|]. destruct (c2 =? 44); [|done].
    destruct (skip_ws r3) as [|c3 r4]; [done|]. destruct (c3 =? 34); [|done].
    apply bind_fuel; [by apply IHo|done].
Qed.

(** [json.loads] finds every value that the scanner finds with some amount
    of fuel. *)
Lemma json_loads_of_scan (s : str) (fuel : nat) (v : pyobj) (r : str) :
  startswith s [0xfeff] = false ->
  scan_once fuel (skip_ws s) = Ok (v, r) ->
  skip_ws r = [] ->
  json_loads s = Ok v.
Proof.
  intros Hbom Hscan Hrest. unfold json_loads. rewrite Hbom.
  assert (Hsame : scan_once (json_loads_fuel s) (skip_ws s) = Ok (v, r)).
  { destruct (scan_once_more_fuel fuel) as (Hup & _ & _).
    destruct (scan_once_more_fuel (json_loads_fuel s)) as (Hdown & _ & _).
    destruct (le_ge_dec fuel (json_loads_fuel s)) as [Hle|Hge].
    - rewrite (Hup _ _ Hle); [done|]. by rewrite Hscan.
    - rewrite <- Hscan. symmetry. apply Hdown; [lia|].
      intros Hrec. destruct (scan_once_fuel (json_loads_fuel s)) as (Hfuel & _ & _).
      apply Hfuel in Hrec; [done|].
      pose proof (skip_ws_length s). unfold json_loads_fuel. lia. }
  rewrite Hsame. cbn [mbind result_bind]. by rewrite Hrest.
Qed.

(** *** The database reads back *)

Lemma scan_once_str_list (A : list str) (fuel : nat) (rest : str) :
  Forall (fun a => plain a = true) A -> (length A < fuel)%nat ->
  scan_once (S fuel) (91 :: join (py ", ") (encode_str <$> A) ++ 93 :: rest)
  = Ok (PyList (PyStr <$> A), rest).
Proof.
  intros HA Hfuel. destruct A as [|a A]; [reflexivity|].
  destruct (join_encoded_head a A (93 :: rest)) as [tail Htail].
  rewrite (scan_once_array _ _ tail) by (by rewrite Htail).
  by rewrite <- Htail, array_items_encoded.
Qed.

Lemma scan_once_object_ok (fuel : nat) (s s1 : str) (pairs : list (str * pyobj))
    (r : str) :
  skip_ws s = 34 :: s1 ->
  object_items fuel s1 = Ok (pairs, r) ->
  scan_once (S fuel) (123 :: s) = Ok (PyDict (dict pairs), r).
Proof. intros Hs Hitems. by rewrite (scan_once_object _ _ s1), Hitems. Qed.

Lemma object_items_comma_ok (fuel : nat) (s key r1 : str) (v : pyobj)
    (r3 r4 : str) (pairs : list (str * pyobj)) (r5 : str) :
  scanstring s = Ok (key, 58 :: r1) ->
  scan_once fuel (skip_ws r1) = Ok (v, 44 :: r3) ->
  skip_ws r3 = 34 :: r4 ->
  object_items fuel r4 = Ok (pairs, r5) ->
  object_items (S fuel) s = Ok ((key, v) :: pairs, r5).
Proof.
  intros Hk Hv Hq Hitems. by rewrite (object_items_comma _ _ key r1 v r3 r4), Hitems.
Qed.

Lemma entry_text (d : str) (A : list str) (f rest : str) :
  json_dumps (entry d A f) ++ rest
  = dq "{'directory': " ++ encode_str d
    ++ dq ", 'arguments': [" ++ join (py ", ") (encode_str <$> A)
    ++ dq "], 'file': " ++ encode_str f ++ 125 :: rest.
Proof.
  unfold entry. cbn [json_dumps map join].
  replace (map json_dumps (PyStr <$> A)) with (encode_str <$> A).
  - change (encode_str (py "directory")) with (dq "'directory'").
    change (encode_str (py "arguments")) with (dq "'arguments'").
    change (encode_str (py "file")) with (dq "'file'").
    rewrite <- !app_assoc. reflexivity.
  - induction A as [|a A IH]; [done|]. rewrite !fmap_cons. simpl. by rewrite IH.
Qed.

(** The text of an entry reads back as the entry. *)
Lemma scan_once_entry (d : str) (A : list str) (f : str) (fuel : nat) (rest : str) :
  plain d = true -> Forall (fun a => plain a = true) A -> plain f = true ->
  (length A + 4 < fuel)%nat ->
  scan_once fuel (json_dumps (entry d A f) ++ rest) = Ok (entry d A f, rest).
Proof.
  intros Hd HA Hf Hfuel.
  destruct fuel as [|[|[|[|[|fuel]]]]]; [simpl in *; lia..|].
  rewrite entry_text.
  change (entry d A f)
    with (PyDict (dict [(py "directory", PyStr d);
                        (py "arguments", PyList (PyStr <$> A));
                        (py "file", PyStr f)])).
  eapply scan_once_object_ok; [reflexivity|].
  eapply object_items_comma_ok.
  { reflexivity. }
  { exact (scan_once_encode_str _ d _ Hd). }
  { reflexivity. }
  eapply object_items_comma_ok.
  { reflexivity. }
  { refine (scan_once_str_list A _ _ HA _). simpl in *. lia. }
  { reflexivity. }
  eapply object_items_close; [reflexivity|].
  exact (scan_once_encode_str _ f _ Hf).
Qed.

Lemma scan_once_array_ok (fuel : nat) (s : str) (c1 : N) (s1 : str)
    (values : list pyobj) (r : str) :
  skip_ws s = c1 :: s1 -> (c1 =? 93) = false ->
  array_items fuel (c1 :: s1) = Ok (values, r) ->
  scan_once (S fuel) (91 :: s) = Ok (PyList values, r).
Proof.
  intros Hs Hc Hitems. cbn [scan_once]. change (91 =? 34) with false.
  change (91 =? 123) with false. change (91 =? 91) with true. cbv iota.
  by rewrite Hs, Hc, Hitems.
Qed.

Lemma entries_text_head (d : str) (A : list str) (f : str) (db : list pyobj)
    (t : str) :
  exists tail,
    join (py ", ") (map json_dumps (entry d A f :: db)) ++ t = 123 :: tail.
Proof.
  cbn [map]. destruct db as [|e db].
  - cbn [map join]. rewrite entry_text. by eexists.
  - cbn [map]. rewrite join_cons_cons, <- app_assoc, entry_text. by eexists.
Qed.

(** The entries of a database as [json.dumps] writes them, up to the
    closing bracket, read back as the database. *)
Lemma array_items_entries (db : list pyobj) (M fuel : nat) (rest : str) :
  db <> [] ->
  Forall (fun e => exists d A f,
            e = entry d A f /\ plain d = true
            /\ Forall (fun a => plain a = true) A /\ plain f = true
            /\ (length A <= M)%nat) db ->
  (length db + M + 4 < fuel)%nat ->
  array_items fuel (join (py ", ") (map json_dumps db) ++ 93 :: rest)
  = Ok (db, rest).
Proof.
  intros Hne Hdb. revert fuel.
  induction Hdb as [|e db (d & A & f & -> & Hd & HA & Hf & HM) Hdb IH]; [done|].
  clear Hne. intros fuel Hfuel.
  destruct fuel as [|fuel]; [simpl in Hfuel; lia|].
  destruct db as [|e' db].
  - apply array_items_close. cbn [map join].
    apply scan_once_entry; [done..|]. simpl in *. lia.
  - rewrite (array_items_comma _ _ (entry d A f)
               (32 :: join (py ", ") (map json_dumps (e' :: db)) ++ 93 :: rest)).
    + change (skip_ws (32 :: ?x)) with (skip_ws x).
      apply Forall_cons in Hdb as [(d' & A' & f' & -> & _) _].
      destruct (entries_text_head d' A' f' db (93 :: rest)) as [tail Htail].
      rewrite Htail. change (skip_ws (123 :: tail)) with (123 :: tail).
      rewrite <- Htail, IH; [reflexivity|done|simpl in *; lia].
    + cbn [map]. rewrite join_cons_cons, <- !app_assoc.
      apply scan_once_entry; [done..|]. simpl in *. lia.
Qed.

Lemma plain_entries_bound (db : list pyobj) :
  Forall plain_entry db ->
  exists M, Forall (fun e => exists d A f,
                      e = entry d A f /\ plain d = true
                      /\ Forall (fun a => plain a = true) A /\ plain f = true
                      /\ (length A <= M)%nat) db.
Proof.
  induction 1 as [|e db (d & A & f & -> & Hd & HA & Hf) _ [M IH]].
  - by exists 0%nat.
  - exists (max M (length A)). constructor.
    + exists d, A, f. repeat split; [done..|lia].
    + eapply Forall_impl; [exact IH|].
      intros e (d' & A' & f' & -> & ? & ? & ? & ?). exists d', A', f'.
      repeat split; [done..|lia].
Qed.

(** The text [json.dumps] writes for a database of plain entries reads back,
    through [json.loads], as that database. *)
Lemma database_text_reads_back (db : list pyobj) :
  Forall plain_entry db -> json_loads (json_dumps (PyList db)) = Ok (PyList db).
Proof.
  intros Hdb. destruct db as [|e db]; [reflexivity|].
  destruct (plain_entries_bound _ Hdb) as [M HM].
  change (json_dumps (PyList (e :: db)))
    with (91 :: join (py ", ") (map json_dumps (e :: db)) ++ [93]).
  apply (json_loads_of_scan _ (S (length (e :: db) + M + 5)) _ []);
    [reflexivity| |reflexivity].
  change (skip_ws (91 :: ?x)) with (91 :: x).
  apply Forall_cons in Hdb as [(d & A & f & -> & _) _].
  destruct (entries_text_head d A f db [93]) as [tail Htail].
  eapply scan_once_array_ok.
  - by rewrite Htail.
  - reflexivity.
  - rewrite <- Htail. apply (array_items_entries _ M); [done|done|lia].
Qed.

(** X10: the database file is valid JSON for the database.  After a run on
    a log whose lines all contribute, when the strings of the entries are
    [plain], [json.loads] reads the text of [compile_commands.json] back as
    the list of the entries, in order. *)
Theorem database_file_reads_back (argv : list str) (log_file text : str)
    (w : world) (rs : list (option pyobj)) :
  argv !! 1%nat = Some log_file ->
  fs w !! log_file = Some text ->
  Forall2 contributes (readlines text) rs ->
  Forall plain_entry (omap id rs) ->
  (gen_compdb argv w).1 = Ok ()
  /\ exists data,
       fs (gen_compdb argv w).2 !! dst = Some data
       /\ json_loads data = Ok (PyList (omap id rs)).
Proof.
  intros Hargv Hfs Hrs Hplain.
  rewrite (gen_compdb_run argv log_file text (Ok (omap id rs))
             (warnings_of (readlines text) rs) w Hargv Hfs).
  - split; [done|]. exists (json_dumps (PyList (omap id rs))).
    split; [apply lookup_insert_eq|]. by apply database_text_reads_back.
  - intros w'. rewrite (for_lines_exact _ rs [] w'); [done|].
    eapply Forall2_impl; [exact Hrs|]. apply contributes_line_result.
Qed.

End Scripts.

(** * The theorems at concrete inputs

    No example holds a number, so the choice of [float_repr] is of no
    consequence: the identity is used. *)

Lemma elem_of_compute (l : str) (ls : list str) : bool_decide (l ∈ ls) = true -> l ∈ ls.
Proof. apply bool_decide_eq_true. Qed.

(** The scenario of the specification: the log holds the one line
    [scenario_line], and the database file then holds the expected text. *)
Lemma gen_compdb_entries_scenario :
  gen_compdb id gen_argv (world_with scenario_line)
  = (Ok (),
     written (py "cc_hook.txt")
       (dq "[{'directory': '/home/u/proj', 'arguments': ['/usr/bin/gcc', '-c', 'main.cpp', '-o', 'main.o'], 'file': '/home/u/proj/main.cpp'}]")
       [] (world_with scenario_line)).
Proof.
  assert (Hrec : Forall2
            (fun l '(wd, args, a) => is_record l wd args /\ last_src (gcc :: args) a)
            (readlines scenario_line)
            [(py "/home/u/proj", [py "-c"; py "main.cpp"; py "-o"; py "main.o"],
              py "main.cpp")]).
  { constructor; [|constructor]. split.
    - eexists. split; [vm_compute; reflexivity|]. split; vm_compute; reflexivity.
    - exists [gcc; py "-c"], [py "-o"; py "main.o"].
      split; [reflexivity|]. split; [vm_compute; reflexivity|].
      repeat constructor. }
  exact (proj2 (proj2 (gen_compdb_entries id gen_argv (py "cc_hook.txt")
                         scenario_line (world_with scenario_line) _
                         eq_refl eq_refl Hrec))).
Defined.

(** A log whose second line lacks the key ["args"]. *)
Lemma malformed_line_aborts_example :
  exists e out,
    gen_compdb id gen_argv (world_with (scenario_line ++ keyless_line))
    = (Raise e, aborted (py "cc_hook.txt") out
                  (world_with (scenario_line ++ keyless_line))).
Proof.
  apply (malformed_line_aborts id gen_argv (py "cc_hook.txt")
           (scenario_line ++ keyless_line)
           (world_with (scenario_line ++ keyless_line)) keyless_line
           eq_refl eq_refl).
  - apply elem_of_compute. vm_compute. reflexivity.
  - vm_compute. right. reflexivity.
Defined.

(** The line [version_line] of the specification's second scenario. *)
Lemma no_source_line_warns_example :
  (forall db w, loop_body version_line db w
                = (Ok db, add_stdout (py "warning no src " ++ version_line ++ [10]) w))
  /\ warning_lines (py "warning no src " ++ version_line ++ [10])
     = [py "warning no src " ++ version_line].
Proof.
  destruct (no_source_line_warns version_line version_line
              (PyDict [(py "wd", PyStr (py "/tmp"));
                       (py "args", PyList [PyStr (py "--version")])])
              (PyStr (py "/tmp")) [py "--version"]) as (Hbody & _ & _ & _).
  - apply elem_of_compute. vm_compute. reflexivity.
  - vm_compute. reflexivity.
  - vm_compute. reflexivity.
  - vm_compute. reflexivity.
  - repeat constructor.
  - split; [exact Hbody|]. vm_compute. reflexivity.
Defined.

(** A log with one line that gives an entry and one that gives none. *)
Lemma db_entries_invariant_example :
  exists (rs : list (option pyobj)) (db : list pyobj),
    Forall2 contributes (readlines (scenario_line ++ version_line)) rs
    /\ db = omap id rs
    /\ fs (gen_compdb id gen_argv (world_with (scenario_line ++ version_line))).2 !! dst
       = Some (json_dumps id (PyList db))
    /\ Forall (fun e => exists directory arguments file,
                 e = entry directory arguments file /\ is_src file = true) db.
Proof.
  apply (db_entries_invariant id gen_argv (py "cc_hook.txt")
           (scenario_line ++ version_line)
           (world_with (scenario_line ++ version_line))).
  - reflexivity.
  - reflexivity.
  - vm_compute. reflexivity.
Defined.

(** The second run, on the world the first one left, changes no file. *)
Lemma generation_is_deterministic_example :
  fs (gen_compdb id gen_argv
        (gen_compdb id gen_argv (world_with scenario_line)).2).2
  = fs (gen_compdb id gen_argv (world_with scenario_line)).2.
Proof.
  apply (generation_is_deterministic id gen_argv (py "cc_hook.txt") scenario_line
           (world_with scenario_line)
           (gen_compdb id gen_argv (world_with scenario_line)).2).
  - reflexivity.
  - reflexivity.
  - vm_compute. reflexivity.
  - reflexivity.
Defined.

(** The source of [absolute_line] is [/src/main.c], whatever the directory. *)
Lemma absolute_source_drops_wd_example :
  loop_body absolute_line [] (world_with absolute_line)
  = (Ok [entry (py "/home/u/proj") [gcc; py "-c"; py "/src/main.c"]
           (py "/src/main.c")],
     world_with absolute_line).
Proof.
  apply (absolute_source_drops_wd absolute_line (py "/home/u/proj")
           [py "-c"; py "/src/main.c"] (py "/src/main.c") []).
  - eexists. split; [vm_compute; reflexivity|]. split; vm_compute; reflexivity.
  - exists [gcc; py "-c"], []. split; [reflexivity|].
    split; [vm_compute; reflexivity|constructor].
  - vm_compute. reflexivity.
Defined.

Lemma empty_log_writes_empty_array_example :
  gen_compdb id gen_argv (world_with [])
  = (Ok (), written (py "cc_hook.txt") (py "[]") [] (world_with [])).
Proof.
  apply (empty_log_writes_empty_array id gen_argv (py "cc_hook.txt") (world_with []));
    reflexivity.
Defined.

(** A log with an empty line after a record. *)
Lemma every_line_is_parsed_alone_example :
  json_loads [10] = Raise JSONDecodeError
  /\ exists e out,
       gen_compdb id gen_argv (world_with (scenario_line ++ [10]))
       = (Raise e, aborted (py "cc_hook.txt") out
                     (world_with (scenario_line ++ [10]))).
Proof.
  destruct (every_line_is_parsed_alone id) as (Hblank & Hrun & _).
  split.
  - apply Hblank. repeat constructor.
  - apply (Hrun gen_argv (py "cc_hook.txt") (scenario_line ++ [10])
             (world_with (scenario_line ++ [10])) [10] eq_refl eq_refl).
    + apply elem_of_compute. vm_compute. reflexivity.
    + repeat constructor.
Defined.

(** C6, as the specification states it, fails: the log below is a record
    followed by an empty line, and the empty line is a fault.  The run
    ends in [JSONDecodeError] and the database file is not written. *)
Lemma empty_line_is_a_fault :
  gen_compdb id gen_argv (world_with (scenario_line ++ [10]))
  = (Raise JSONDecodeError,
     aborted (py "cc_hook.txt") [] (world_with (scenario_line ++ [10]))).
Proof. vm_compute. reflexivity. Qed.

(** The wrapper run as [cc -c main.cpp -o main.o] in [/home/u/proj] on an
    empty world writes the scenario's line to [cc_hook.txt]; the line is a
    record. *)
Lemma wrapper_appends_one_record_line_example :
  (cc id [py "cc"; py "-c"; py "main.cpp"; py "-o"; py "main.o"] ∅
      (py "/home/u/proj") (world_with [])).1 = Ok ()
  /\ fs (cc id [py "cc"; py "-c"; py "main.cpp"; py "-o"; py "main.o"] ∅
           (py "/home/u/proj") (world_with [])).2 !! py "cc_hook.txt"
     = Some scenario_line
  /\ is_record scenario_line (py "/home/u/proj")
       [py "-c"; py "main.cpp"; py "-o"; py "main.o"].
Proof.
  destruct (wrapper_appends_one_record_line id
              [py "cc"; py "-c"; py "main.cpp"; py "-o"; py "main.o"] ∅
              (py "/home/u/proj") (world_with [])) as (Hrun & _ & _ & Hrec).
  rewrite Hrun. split; [reflexivity|]. split; [vm_compute; reflexivity|].
  apply Hrec; [vm_compute; reflexivity|]. repeat constructor.
Defined.

(** The wrapper and then the generator, on the scenario's invocation. *)
Lemma wrapper_then_generator_example :
  fs (gen_compdb id gen_argv
        (cc id [py "cc"; py "-c"; py "main.cpp"; py "-o"; py "main.o"] ∅
            (py "/home/u/proj") (world_with [])).2).2 !! dst
  = Some (dq "[{'directory': '/home/u/proj', 'arguments': ['/usr/bin/gcc', '-c', 'main.cpp', '-o', 'main.o'], 'file': '/home/u/proj/main.cpp'}]").
Proof.
  rewrite (wrapper_then_generator id
             [py "cc"; py "-c"; py "main.cpp"; py "-o"; py "main.o"] gen_argv ∅
             (py "/home/u/proj") (py "main.cpp") (world_with [])).
  - vm_compute. reflexivity.
  - vm_compute. reflexivity.
  - repeat constructor.
  - exists [gcc; py "-c"], [py "-o"; py "main.o"].
    split; [reflexivity|]. split; [vm_compute; reflexivity|]. repeat constructor.
  - reflexivity.
  - reflexivity.
Defined.

(** ** The further properties at concrete inputs *)

Lemma scenario_line_contributes : contributes scenario_line (Some scenario_entry).
Proof.
  eexists _, (PyStr (py "/home/u/proj")), [py "-c"; py "main.cpp"; py "-o"; py "main.o"].
  split; [vm_compute; reflexivity|]. split; [vm_compute; reflexivity|].
  split; [vm_compute; reflexivity|]. right.
  exists (py "/home/u/proj"), (py "main.cpp"). split; [reflexivity|]. split.
  - exists [gcc; py "-c"], [py "-o"; py "main.o"].
    split; [reflexivity|]. split; [vm_compute; reflexivity|]. repeat constructor.
  - vm_compute. reflexivity.
Qed.

Lemma version_line_contributes : contributes version_line None.
Proof.
  eexists _, (PyStr (py "/tmp")), [py "--version"].
  split; [vm_compute; reflexivity|]. split; [vm_compute; reflexivity|].
  split; [vm_compute; reflexivity|]. left. split; [|reflexivity]. repeat constructor.
Qed.

Lemma scenario_then_version_contribute :
  Forall2 contributes (readlines (scenario_line ++ version_line))
    [Some scenario_entry; None].
Proof.
  replace (readlines (scenario_line ++ version_line))
    with [scenario_line; version_line] by (vm_compute; reflexivity).
  constructor; [apply scenario_line_contributes|].
  constructor; [apply version_line_contributes|constructor].
Qed.

(** The generator started with no argument, and on a log that is not
    there, in a world that holds another file. *)
Lemma startup_faults_touch_nothing_example :
  gen_compdb id [py "gen_compdb.py"] (world_with scenario_line)
  = (Raise IndexError, world_with scenario_line)
  /\ gen_compdb id [py "gen_compdb.py"; py "build.log"] (world_with scenario_line)
     = (Raise FileNotFoundError, world_with scenario_line).
Proof.
  split.
  - apply (proj1 (startup_faults_touch_nothing id [py "gen_compdb.py"]
                    (world_with scenario_line))).
    simpl. lia.
  - apply (proj2 (startup_faults_touch_nothing id
                    [py "gen_compdb.py"; py "build.log"]
                    (world_with scenario_line)) (py "build.log")).
    + reflexivity.
    + vm_compute. reflexivity.
Defined.

(** A log of three lines: one without a source, one without ["args"], and
    the scenario's.  The warning of the first is printed, the second ends
    the run, the third is never reached. *)
Lemma first_fault_decides_example :
  gen_compdb id gen_argv (world_with (version_line ++ keyless_line ++ scenario_line))
  = (Raise KeyError,
     aborted (py "cc_hook.txt") (py "warning no src " ++ version_line ++ [10])
       (world_with (version_line ++ keyless_line ++ scenario_line))).
Proof.
  apply (first_fault_decides id gen_argv (py "cc_hook.txt")
           (version_line ++ keyless_line ++ scenario_line)
           (world_with (version_line ++ keyless_line ++ scenario_line))
           [version_line] [scenario_line] keyless_line [None] KeyError).
  - reflexivity.
  - reflexivity.
  - vm_compute. reflexivity.
  - constructor; [apply version_line_contributes|constructor].
  - vm_compute. reflexivity.
Defined.

(** A log with the scenario's line and then a line without a source. *)
Lemma mixed_log_run_example :
  gen_compdb id gen_argv (world_with (scenario_line ++ version_line))
  = (Ok (),
     written (py "cc_hook.txt")
       (dq "[{'directory': '/home/u/proj', 'arguments': ['/usr/bin/gcc', '-c', 'main.cpp', '-o', 'main.o'], 'file': '/home/u/proj/main.cpp'}]")
       (py "warning no src " ++ version_line ++ [10])
       (world_with (scenario_line ++ version_line))).
Proof.
  apply (mixed_log_run id gen_argv (py "cc_hook.txt") (scenario_line ++ version_line)
           (world_with (scenario_line ++ version_line))
           [Some scenario_entry; None]).
  - reflexivity.
  - reflexivity.
  - apply scenario_then_version_contribute.
Defined.

(** Two lines whose ["wd"] is the number [1]: one without a source, one
    with. *)
Lemma non_string_wd_example :
  loop_body (dq "{'wd': 1, 'args': ['--version']}") [] (world_with [])
  = (Ok [], add_stdout (py "warning no src "
                        ++ dq "{'wd': 1, 'args': ['--version']}" ++ [10])
              (world_with []))
  /\ loop_body (dq "{'wd': 1, 'args': ['-c', 'main.c']}") [] (world_with [])
     = (Raise TypeError, world_with []).
Proof.
  split.
  - apply (proj1 (non_string_wd (dq "{'wd': 1, 'args': ['--version']}")
                    (PyDict [(py "wd", PyInt 1);
                             (py "args", PyList [PyStr (py "--version")])])
                    (PyInt 1) [py "--version"] [] (world_with [])
                    ltac:(vm_compute; reflexivity) ltac:(vm_compute; reflexivity)
                    ltac:(vm_compute; reflexivity) ltac:(discriminate))).
    repeat constructor.
  - apply (proj2 (non_string_wd (dq "{'wd': 1, 'args': ['-c', 'main.c']}")
                    (PyDict [(py "wd", PyInt 1);
                             (py "args", PyList [PyStr (py "-c");
                                                 PyStr (py "main.c")])])
                    (PyInt 1) [py "-c"; py "main.c"] [] (world_with [])
                    ltac:(vm_compute; reflexivity) ltac:(vm_compute; reflexivity)
                    ltac:(vm_compute; reflexivity) ltac:(discriminate))
             (py "main.c")).
    exists [gcc; py "-c"], []. split; [reflexivity|].
    split; [vm_compute; reflexivity|constructor].
Defined.

(** One line for each fault: an array, an object without ["wd"], one
    without ["args"], one whose ["args"] is a string, and one whose
    ["args"] holds a number. *)
Lemma record_shape_faults_example :
  loop_body (dq "['-c', 'main.c']") [] (world_with [])
  = (Raise TypeError, world_with [])
  /\ loop_body (dq "{'args': ['-c', 'main.c']}") [] (world_with [])
     = (Raise KeyError, world_with [])
  /\ loop_body keyless_line [] (world_with []) = (Raise KeyError, world_with [])
  /\ loop_body (dq "{'wd': '/tmp', 'args': '-c main.c'}") [] (world_with [])
     = (Raise TypeError, world_with [])
  /\ loop_body (dq "{'wd': '/tmp', 'args': ['-c', 1, 'main.c']}") [] (world_with [])
     = (Raise AttributeError, world_with []).
Proof.
  split; [|split; [|split; [|split]]].
  - destruct (record_shape_faults (dq "['-c', 'main.c']")
                (PyList [PyStr (py "-c"); PyStr (py "main.c")]) [] (world_with [])
                ltac:(vm_compute; reflexivity)) as (H & _).
    apply H. discriminate.
  - destruct (record_shape_faults (dq "{'args': ['-c', 'main.c']}")
                (PyDict [(py "args", PyList [PyStr (py "-c"); PyStr (py "main.c")])])
                [] (world_with [])
                ltac:(vm_compute; reflexivity)) as (_ & H & _).
    eapply H; [reflexivity|]. vm_compute. reflexivity.
  - destruct (record_shape_faults keyless_line
                (PyDict [(py "wd", PyStr (py "/tmp"))]) [] (world_with [])
                ltac:(vm_compute; reflexivity)) as (_ & _ & H & _).
    eapply H; [reflexivity| |]; vm_compute; reflexivity.
  - destruct (record_shape_faults (dq "{'wd': '/tmp', 'args': '-c main.c'}")
                (PyDict [(py "wd", PyStr (py "/tmp"));
                         (py "args", PyStr (py "-c main.c"))]) [] (world_with [])
                ltac:(vm_compute; reflexivity)) as (_ & _ & _ & H & _).
    eapply H; [reflexivity| | |].
    + vm_compute. reflexivity.
    + vm_compute. reflexivity.
    + discriminate.
  - destruct (record_shape_faults (dq "{'wd': '/tmp', 'args': ['-c', 1, 'main.c']}")
                (PyDict [(py "wd", PyStr (py "/tmp"));
                         (py "args", PyList [PyStr (py "-c"); PyInt 1;
                                             PyStr (py "main.c")])])
                [] (world_with [])
                ltac:(vm_compute; reflexivity)) as (_ & _ & _ & _ & H).
    apply (H _ (py "/tmp") [py "-c"] (PyInt 1) [PyStr (py "main.c")] eq_refl).
    + vm_compute. reflexivity.
    + vm_compute. reflexivity.
    + discriminate.
Defined.

(** The loop on the scenario's line and a line without a source, both
    logged in absolute directories. *)
Lemma absolute_wd_gives_absolute_file_example :
  Forall (fun e => exists directory arguments file,
            e = entry directory arguments file
            /\ startswith file (py "/") = true) [scenario_entry].
Proof.
  apply (absolute_wd_gives_absolute_file [scenario_line; version_line]
           [scenario_entry] (world_with [])
           (add_stdout (py "warning no src " ++ version_line ++ [10]) (world_with []))).
  - vm_compute. reflexivity.
  - constructor; [|constructor; [|constructor]].
    + intros it W Hit Hwd. vm_compute in Hit. injection Hit as <-.
      vm_compute in Hwd. injection Hwd as <-. reflexivity.
    + intros it W Hit Hwd. vm_compute in Hit. injection Hit as <-.
      vm_compute in Hwd. injection Hwd as <-. reflexivity.
Defined.


(** The database written for a log with the scenario's line and a line
    without a source reads back as the scenario's entry. *)
Lemma database_file_reads_back_example :
  (gen_compdb id gen_argv (world_with (scenario_line ++ version_line))).1 = Ok ()
  /\ exists data,
       fs (gen_compdb id gen_argv (world_with (scenario_line ++ version_line))).2
         !! dst = Some data
       /\ json_loads data = Ok (PyList [scenario_entry]).
Proof.
  apply (database_file_reads_back id gen_argv (py "cc_hook.txt")
           (scenario_line ++ version_line)
           (world_with (scenario_line ++ version_line))
           [Some scenario_entry; None]).
  - reflexivity.
  - reflexivity.
  - apply scenario_then_version_contribute.
  - constructor; [|constructor].
    exists (py "/home/u/proj"), [gcc; py "-c"; py "main.cpp"; py "-o"; py "main.o"],
      (py "/home/u/proj/main.cpp").
    split; [reflexivity|]. split; [vm_compute; reflexivity|].
    split; [repeat constructor|vm_compute; reflexivity].
Defined.
